(** * VectorSearchRetrieverTool (databricks_openai): a shallow embedding

    Source: integrations/openai/src/databricks_openai/vector_search_retriever_tool.py

    The class is integration glue: it validates a configuration against an
    index's metadata, derives a tool name, and at call time chooses between
    two request shapes.  The external collaborators (vector-search client,
    index-details inspector, column validators, embedding client, serving
    endpoint lookup, response parser) are oracles collected in a [World];
    every call to a remote service is recorded in a chronological trace, so
    that "a search is issued with these arguments" and "no embedding is
    computed" are statements about that trace.

    Strings are sequences of characters ([Stdlib.Strings.String]) with
    [len], [split], [replace] and slicing as in Python.  The query type,
    the one string the code upper-cases, is the sequence of its Unicode
    code points, and [upper] is [str.upper()] on all of them. *)

From Stdlib Require Import String Ascii List ZArith NArith Bool Lia PrimFloat DecimalString.
Import ListNotations.
Open Scope string_scope.
Set Warnings "-inexact-float".

(** ** Python strings *)

Module PyStr.

(** [len(s)] *)
Definition len (s : string) : nat := String.length s.

(** A Python [str] given by its Unicode code points. *)
Definition codepoints : Type := list N.

(** The [str] spelled by an ASCII literal. *)
Definition of_ascii (s : string) : codepoints :=
  map N_of_ascii (list_ascii_of_string s).

(** The upper-case mapping that [str.upper()] applies to each code point:
    Unicode's full case mapping (Unicode 14.0.0, as in CPython 3.11), one
    entry per code point that it changes, some into two or three code
    points.  Code points without an entry are left as they are. *)
Definition upper_table : list (N * list N) :=
  [(97, [65]); (98, [66]); (99, [67]); (100, [68]); (101, [69]); (102, [70]); (103, [71]);
   (104, [72]); (105, [73]); (106, [74]); (107, [75]); (108, [76]); (109, [77]);
   (110, [78]); (111, [79]); (112, [80]); (113, [81]); (114, [82]); (115, [83]);
   (116, [84]); (117, [85]); (118, [86]); (119, [87]); (120, [88]); (121, [89]);
   (122, [90]); (181, [924]); (223, [83; 83]); (224, [192]); (225, [193]); (226, [194]);
   (227, [195]); (228, [196]); (229, [197]); (230, [198]); (231, [199]); (232, [200]);
   (233, [201]); (234, [202]); (235, [203]); (236, [204]); (237, [205]); (238, [206]);
   (239, [207]); (240, [208]); (241, [209]); (242, [210]); (243, [211]); (244, [212]);
   (245, [213]); (246, [214]); (248, [216]); (249, [217]); (250, [218]); (251, [219]);
   (252, [220]); (253, [221]); (254, [222]); (255, [376]); (257, [256]); (259, [258]);
   (261, [260]); (263, [262]); (265, [264]); (267, [266]); (269, [268]); (271, [270]);
   (273, [272]); (275, [274]); (277, [276]); (279, [278]); (281, [280]); (283, [282]);
   (285, [284]); (287, [286]); (289, [288]); (291, [290]); (293, [292]); (295, [294]);
   (297, [296]); (299, [298]); (301, [300]); (303, [302]); (305, [73]); (307, [306]);
   (309, [308]); (311, [310]); (314, [313]); (316, [315]); (318, [317]); (320, [319]);
   (322, [321]); (324, [323]); (326, [325]); (328, [327]); (329, [700; 78]); (331, [330]);
   (333, [332]); (335, [334]); (337, [336]); (339, [338]); (341, [340]); (343, [342]);
   (345, [344]); (347, [346]); (349, [348]); (351, [350]); (353, [352]); (355, [354]);
   (357, [356]); (359, [358]); (361, [360]); (363, [362]); (365, [364]); (367, [366]);
   (369, [368]); (371, [370]); (373, [372]); (375, [374]); (378, [377]); (380, [379]);
   (382, [381]); (383, [83]); (384, [579]); (387, [386]); (389, [388]); (392, [391]);
   (396, [395]); (402, [401]); (405, [502]); (409, [408]); (410, [573]); (414, [544]);
   (417, [416]); (419, [418]); (421, [420]); (424, [423]); (429, [428]); (432, [431]);
   (436, [435]); (438, [437]); (441, [440]); (445, [444]); (447, [503]); (453, [452]);
   (454, [452]); (456, [455]); (457, [455]); (459, [458]); (460, [458]); (462, [461]);
   (464, [463]); (466, [465]); (468, [467]); (470, [469]); (472, [471]); (474, [473]);
   (476, [475]); (477, [398]); (479, [478]); (481, [480]); (483, [482]); (485, [484]);
   (487, [486]); (489, [488]); (491, [490]); (493, [492]); (495, [494]); (496, [74; 780]);
   (498, [497]); (499, [497]); (501, [500]); (505, [504]); (507, [506]); (509, [508]);
   (511, [510]); (513, [512]); (515, [514]); (517, [516]); (519, [518]); (521, [520]);
   (523, [522]); (525, [524]); (527, [526]); (529, [528]); (531, [530]); (533, [532]);
   (535, [534]); (537, [536]); (539, [538]); (541, [540]); (543, [542]); (547, [546]);
   (549, [548]); (551, [550]); (553, [552]); (555, [554]); (557, [556]); (559, [558]);
   (561, [560]); (563, [562]); (572, [571]); (575, [11390]); (576, [11391]); (578, [577]);
   (583, [582]); (585, [584]); (587, [586]); (589, [588]); (591, [590]); (592, [11375]);
   (593, [11373]); (594, [11376]); (595, [385]); (596, [390]); (598, [393]); (599, [394]);
   (601, [399]); (603, [400]); (604, [42923]); (608, [403]); (609, [42924]); (611, [404]);
   (613, [42893]); (614, [42922]); (616, [407]); (617, [406]); (618, [42926]);
   (619, [11362]); (620, [42925]); (623, [412]); (625, [11374]); (626, [413]);
   (629, [415]); (637, [11364]); (640, [422]); (642, [42949]); (643, [425]);
   (647, [42929]); (648, [430]); (649, [580]); (650, [433]); (651, [434]); (652, [581]);
   (658, [439]); (669, [42930]); (670, [42928]); (837, [921]); (881, [880]); (883, [882]);
   (887, [886]); (891, [1021]); (892, [1022]); (893, [1023]); (912, [921; 776; 769]);
   (940, [902]); (941, [904]); (942, [905]); (943, [906]); (944, [933; 776; 769]);
   (945, [913]); (946, [914]); (947, [915]); (948, [916]); (949, [917]); (950, [918]);
   (951, [919]); (952, [920]); (953, [921]); (954, [922]); (955, [923]); (956, [924]);
   (957, [925]); (958, [926]); (959, [927]); (960, [928]); (961, [929]); (962, [931]);
   (963, [931]); (964, [932]); (965, [933]); (966, [934]); (967, [935]); (968, [936]);
   (969, [937]); (970, [938]); (971, [939]); (972, [908]); (973, [910]); (974, [911]);
   (976, [914]); (977, [920]); (981, [934]); (982, [928]); (983, [975]); (985, [984]);
   (987, [986]); (989, [988]); (991, [990]); (993, [992]); (995, [994]); (997, [996]);
   (999, [998]); (1001, [1000]); (1003, [1002]); (1005, [1004]); (1007, [1006]);
   (1008, [922]); (1009, [929]); (1010, [1017]); (1011, [895]); (1013, [917]);
   (1016, [1015]); (1019, [1018]); (1072, [1040]); (1073, [1041]); (1074, [1042]);
   (1075, [1043]); (1076, [1044]); (1077, [1045]); (1078, [1046]); (1079, [1047]);
   (1080, [1048]); (1081, [1049]); (1082, [1050]); (1083, [1051]); (1084, [1052]);
   (1085, [1053]); (1086, [1054]); (1087, [1055]); (1088, [1056]); (1089, [1057]);
   (1090, [1058]); (1091, [1059]); (1092, [1060]); (1093, [1061]); (1094, [1062]);
   (1095, [1063]); (1096, [1064]); (1097, [1065]); (1098, [1066]); (1099, [1067]);
   (1100, [1068]); (1101, [1069]); (1102, [1070]); (1103, [1071]); (1104, [1024]);
   (1105, [1025]); (1106, [1026]); (1107, [1027]); (1108, [1028]); (1109, [1029]);
   (1110, [1030]); (1111, [1031]); (1112, [1032]); (1113, [1033]); (1114, [1034]);
   (1115, [1035]); (1116, [1036]); (1117, [1037]); (1118, [1038]); (1119, [1039]);
   (1121, [1120]); (1123, [1122]); (1125, [1124]); (1127, [1126]); (1129, [1128]);
   (1131, [1130]); (1133, [1132]); (1135, [1134]); (1137, [1136]); (1139, [1138]);
   (1141, [1140]); (1143, [1142]); (1145, [1144]); (1147, [1146]); (1149, [1148]);
   (1151, [1150]); (1153, [1152]); (1163, [1162]); (1165, [1164]); (1167, [1166]);
   (1169, [1168]); (1171, [1170]); (1173, [1172]); (1175, [1174]); (1177, [1176]);
   (1179, [1178]); (1181, [1180]); (1183, [1182]); (1185, [1184]); (1187, [1186]);
   (1189, [1188]); (1191, [1190]); (1193, [1192]); (1195, [1194]); (1197, [1196]);
   (1199, [1198]); (1201, [1200]); (1203, [1202]); (1205, [1204]); (1207, [1206]);
   (1209, [1208]); (1211, [1210]); (1213, [1212]); (1215, [1214]); (1218, [1217]);
   (1220, [1219]); (1222, [1221]); (1224, [1223]); (1226, [1225]); (1228, [1227]);
   (1230, [1229]); (1231, [1216]); (1233, [1232]); (1235, [1234]); (1237, [1236]);
   (1239, [1238]); (1241, [1240]); (1243, [1242]); (1245, [1244]); (1247, [1246]);
   (1249, [1248]); (1251, [1250]); (1253, [1252]); (1255, [1254]); (1257, [1256]);
   (1259, [1258]); (1261, [1260]); (1263, [1262]); (1265, [1264]); (1267, [1266]);
   (1269, [1268]); (1271, [1270]); (1273, [1272]); (1275, [1274]); (1277, [1276]);
   (1279, [1278]); (1281, [1280]); (1283, [1282]); (1285, [1284]); (1287, [1286]);
   (1289, [1288]); (1291, [1290]); (1293, [1292]); (1295, [1294]); (1297, [1296]);
   (1299, [1298]); (1301, [1300]); (1303, [1302]); (1305, [1304]); (1307, [1306]);
   (1309, [1308]); (1311, [1310]); (1313, [1312]); (1315, [1314]); (1317, [1316]);
   (1319, [1318]); (1321, [1320]); (1323, [1322]); (1325, [1324]); (1327, [1326]);
   (1377, [1329]); (1378, [1330]); (1379, [1331]); (1380, [1332]); (1381, [1333]);
   (1382, [1334]); (1383, [1335]); (1384, [1336]); (1385, [1337]); (1386, [1338]);
   (1387, [1339]); (1388, [1340]); (1389, [1341]); (1390, [1342]); (1391, [1343]);
   (1392, [1344]); (1393, [1345]); (1394, [1346]); (1395, [1347]); (1396, [1348]);
   (1397, [1349]); (1398, [1350]); (1399, [1351]); (1400, [1352]); (1401, [1353]);
   (1402, [1354]); (1403, [1355]); (1404, [1356]); (1405, [1357]); (1406, [1358]);
   (1407, [1359]); (1408, [1360]); (1409, [1361]); (1410, [1362]); (1411, [1363]);
   (1412, [1364]); (1413, [1365]); (1414, [1366]); (1415, [1333; 1362]); (4304, [7312]);
   (4305, [7313]); (4306, [7314]); (4307, [7315]); (4308, [7316]); (4309, [7317]);
   (4310, [7318]); (4311, [7319]); (4312, [7320]); (4313, [7321]); (4314, [7322]);
   (4315, [7323]); (4316, [7324]); (4317, [7325]); (4318, [7326]); (4319, [7327]);
   (4320, [7328]); (4321, [7329]); (4322, [7330]); (4323, [7331]); (4324, [7332]);
   (4325, [7333]); (4326, [7334]); (4327, [7335]); (4328, [7336]); (4329, [7337]);
   (4330, [7338]); (4331, [7339]); (4332, [7340]); (4333, [7341]); (4334, [7342]);
   (4335, [7343]); (4336, [7344]); (4337, [7345]); (4338, [7346]); (4339, [7347]);
   (4340, [7348]); (4341, [7349]); (4342, [7350]); (4343, [7351]); (4344, [7352]);
   (4345, [7353]); (4346, [7354]); (4349, [7357]); (4350, [7358]); (4351, [7359]);
   (5112, [5104]); (5113, [5105]); (5114, [5106]); (5115, [5107]); (5116, [5108]);
   (5117, [5109]); (7296, [1042]); (7297, [1044]); (7298, [1054]); (7299, [1057]);
   (7300, [1058]); (7301, [1058]); (7302, [1066]); (7303, [1122]); (7304, [42570]);
   (7545, [42877]); (7549, [11363]); (7566, [42950]); (7681, [7680]); (7683, [7682]);
   (7685, [7684]); (7687, [7686]); (7689, [7688]); (7691, [7690]); (7693, [7692]);
   (7695, [7694]); (7697, [7696]); (7699, [7698]); (7701, [7700]); (7703, [7702]);
   (7705, [7704]); (7707, [7706]); (7709, [7708]); (7711, [7710]); (7713, [7712]);
   (7715, [7714]); (7717, [7716]); (7719, [7718]); (7721, [7720]); (7723, [7722]);
   (7725, [7724]); (7727, [7726]); (7729, [7728]); (7731, [7730]); (7733, [7732]);
   (7735, [7734]); (7737, [7736]); (7739, [7738]); (7741, [7740]); (7743, [7742]);
   (7745, [7744]); (7747, [7746]); (7749, [7748]); (7751, [7750]); (7753, [7752]);
   (7755, [7754]); (7757, [7756]); (7759, [7758]); (7761, [7760]); (7763, [7762]);
   (7765, [7764]); (7767, [7766]); (7769, [7768]); (7771, [7770]); (7773, [7772]);
   (7775, [7774]); (7777, [7776]); (7779, [7778]); (7781, [7780]); (7783, [7782]);
   (7785, [7784]); (7787, [7786]); (7789, [7788]); (7791, [7790]); (7793, [7792]);
   (7795, [7794]); (7797, [7796]); (7799, [7798]); (7801, [7800]); (7803, [7802]);
   (7805, [7804]); (7807, [7806]); (7809, [7808]); (7811, [7810]); (7813, [7812]);
   (7815, [7814]); (7817, [7816]); (7819, [7818]); (7821, [7820]); (7823, [7822]);
   (7825, [7824]); (7827, [7826]); (7829, [7828]); (7830, [72; 817]); (7831, [84; 776]);
   (7832, [87; 778]); (7833, [89; 778]); (7834, [65; 702]); (7835, [7776]); (7841, [7840]);
   (7843, [7842]); (7845, [7844]); (7847, [7846]); (7849, [7848]); (7851, [7850]);
   (7853, [7852]); (7855, [7854]); (7857, [7856]); (7859, [7858]); (7861, [7860]);
   (7863, [7862]); (7865, [7864]); (7867, [7866]); (7869, [7868]); (7871, [7870]);
   (7873, [7872]); (7875, [7874]); (7877, [7876]); (7879, [7878]); (7881, [7880]);
   (7883, [7882]); (7885, [7884]); (7887, [7886]); (7889, [7888]); (7891, [7890]);
   (7893, [7892]); (7895, [7894]); (7897, [7896]); (7899, [7898]); (7901, [7900]);
   (7903, [7902]); (7905, [7904]); (7907, [7906]); (7909, [7908]); (7911, [7910]);
   (7913, [7912]); (7915, [7914]); (7917, [7916]); (7919, [7918]); (7921, [7920]);
   (7923, [7922]); (7925, [7924]); (7927, [7926]); (7929, [7928]); (7931, [7930]);
   (7933, [7932]); (7935, [7934]); (7936, [7944]); (7937, [7945]); (7938, [7946]);
   (7939, [7947]); (7940, [7948]); (7941, [7949]); (7942, [7950]); (7943, [7951]);
   (7952, [7960]); (7953, [7961]); (7954, [7962]); (7955, [7963]); (7956, [7964]);
   (7957, [7965]); (7968, [7976]); (7969, [7977]); (7970, [7978]); (7971, [7979]);
   (7972, [7980]); (7973, [7981]); (7974, [7982]); (7975, [7983]); (7984, [7992]);
   (7985, [7993]); (7986, [7994]); (7987, [7995]); (7988, [7996]); (7989, [7997]);
   (7990, [7998]); (7991, [7999]); (8000, [8008]); (8001, [8009]); (8002, [8010]);
   (8003, [8011]); (8004, [8012]); (8005, [8013]); (8016, [933; 787]); (8017, [8025]);
   (8018, [933; 787; 768]); (8019, [8027]); (8020, [933; 787; 769]); (8021, [8029]);
   (8022, [933; 787; 834]); (8023, [8031]); (8032, [8040]); (8033, [8041]); (8034, [8042]);
   (8035, [8043]); (8036, [8044]); (8037, [8045]); (8038, [8046]); (8039, [8047]);
   (8048, [8122]); (8049, [8123]); (8050, [8136]); (8051, [8137]); (8052, [8138]);
   (8053, [8139]); (8054, [8154]); (8055, [8155]); (8056, [8184]); (8057, [8185]);
   (8058, [8170]); (8059, [8171]); (8060, [8186]); (8061, [8187]); (8064, [7944; 921]);
   (8065, [7945; 921]); (8066, [7946; 921]); (8067, [7947; 921]); (8068, [7948; 921]);
   (8069, [7949; 921]); (8070, [7950; 921]); (8071, [7951; 921]); (8072, [7944; 921]);
   (8073, [7945; 921]); (8074, [7946; 921]); (8075, [7947; 921]); (8076, [7948; 921]);
   (8077, [7949; 921]); (8078, [7950; 921]); (8079, [7951; 921]); (8080, [7976; 921]);
   (8081, [7977; 921]); (8082, [7978; 921]); (8083, [7979; 921]); (8084, [7980; 921]);
   (8085, [7981; 921]); (8086, [7982; 921]); (8087, [7983; 921]); (8088, [7976; 921]);
   (8089, [7977; 921]); (8090, [7978; 921]); (8091, [7979; 921]); (8092, [7980; 921]);
   (8093, [7981; 921]); (8094, [7982; 921]); (8095, [7983; 921]); (8096, [8040; 921]);
   (8097, [8041; 921]); (8098, [8042; 921]); (8099, [8043; 921]); (8100, [8044; 921]);
   (8101, [8045; 921]); (8102, [8046; 921]); (8103, [8047; 921]); (8104, [8040; 921]);
   (8105, [8041; 921]); (8106, [8042; 921]); (8107, [8043; 921]); (8108, [8044; 921]);
   (8109, [8045; 921]); (8110, [8046; 921]); (8111, [8047; 921]); (8112, [8120]);
   (8113, [8121]); (8114, [8122; 921]); (8115, [913; 921]); (8116, [902; 921]);
   (8118, [913; 834]); (8119, [913; 834; 921]); (8124, [913; 921]); (8126, [921]);
   (8130, [8138; 921]); (8131, [919; 921]); (8132, [905; 921]); (8134, [919; 834]);
   (8135, [919; 834; 921]); (8140, [919; 921]); (8144, [8152]); (8145, [8153]);
   (8146, [921; 776; 768]); (8147, [921; 776; 769]); (8150, [921; 834]);
   (8151, [921; 776; 834]); (8160, [8168]); (8161, [8169]); (8162, [933; 776; 768]);
   (8163, [933; 776; 769]); (8164, [929; 787]); (8165, [8172]); (8166, [933; 834]);
   (8167, [933; 776; 834]); (8178, [8186; 921]); (8179, [937; 921]); (8180, [911; 921]);
   (8182, [937; 834]); (8183, [937; 834; 921]); (8188, [937; 921]); (8526, [8498]);
   (8560, [8544]); (8561, [8545]); (8562, [8546]); (8563, [8547]); (8564, [8548]);
   (8565, [8549]); (8566, [8550]); (8567, [8551]); (8568, [8552]); (8569, [8553]);
   (8570, [8554]); (8571, [8555]); (8572, [8556]); (8573, [8557]); (8574, [8558]);
   (8575, [8559]); (8580, [8579]); (9424, [9398]); (9425, [9399]); (9426, [9400]);
   (9427, [9401]); (9428, [9402]); (9429, [9403]); (9430, [9404]); (9431, [9405]);
   (9432, [9406]); (9433, [9407]); (9434, [9408]); (9435, [9409]); (9436, [9410]);
   (9437, [9411]); (9438, [9412]); (9439, [9413]); (9440, [9414]); (9441, [9415]);
   (9442, [9416]); (9443, [9417]); (9444, [9418]); (9445, [9419]); (9446, [9420]);
   (9447, [9421]); (9448, [9422]); (9449, [9423]); (11312, [11264]); (11313, [11265]);
   (11314, [11266]); (11315, [11267]); (11316, [11268]); (11317, [11269]);
   (11318, [11270]); (11319, [11271]); (11320, [11272]); (11321, [11273]);
   (11322, [11274]); (11323, [11275]); (11324, [11276]); (11325, [11277]);
   (11326, [11278]); (11327, [11279]); (11328, [11280]); (11329, [11281]);
   (11330, [11282]); (11331, [11283]); (11332, [11284]); (11333, [11285]);
   (11334, [11286]); (11335, [11287]); (11336, [11288]); (11337, [11289]);
   (11338, [11290]); (11339, [11291]); (11340, [11292]); (11341, [11293]);
   (11342, [11294]); (11343, [11295]); (11344, [11296]); (11345, [11297]);
   (11346, [11298]); (11347, [11299]); (11348, [11300]); (11349, [11301]);
   (11350, [11302]); (11351, [11303]); (11352, [11304]); (11353, [11305]);
   (11354, [11306]); (11355, [11307]); (11356, [11308]); (11357, [11309]);
   (11358, [11310]); (11359, [11311]); (11361, [11360]); (11365, [570]); (11366, [574]);
   (11368, [11367]); (11370, [11369]); (11372, [11371]); (11379, [11378]);
   (11382, [11381]); (11393, [11392]); (11395, [11394]); (11397, [11396]);
   (11399, [11398]); (11401, [11400]); (11403, [11402]); (11405, [11404]);
   (11407, [11406]); (11409, [11408]); (11411, [11410]); (11413, [11412]);
   (11415, [11414]); (11417, [11416]); (11419, [11418]); (11421, [11420]);
   (11423, [11422]); (11425, [11424]); (11427, [11426]); (11429, [11428]);
   (11431, [11430]); (11433, [11432]); (11435, [11434]); (11437, [11436]);
   (11439, [11438]); (11441, [11440]); (11443, [11442]); (11445, [11444]);
   (11447, [11446]); (11449, [11448]); (11451, [11450]); (11453, [11452]);
   (11455, [11454]); (11457, [11456]); (11459, [11458]); (11461, [11460]);
   (11463, [11462]); (11465, [11464]); (11467, [11466]); (11469, [11468]);
   (11471, [11470]); (11473, [11472]); (11475, [11474]); (11477, [11476]);
   (11479, [11478]); (11481, [11480]); (11483, [11482]); (11485, [11484]);
   (11487, [11486]); (11489, [11488]); (11491, [11490]); (11500, [11499]);
   (11502, [11501]); (11507, [11506]); (11520, [4256]); (11521, [4257]); (11522, [4258]);
   (11523, [4259]); (11524, [4260]); (11525, [4261]); (11526, [4262]); (11527, [4263]);
   (11528, [4264]); (11529, [4265]); (11530, [4266]); (11531, [4267]); (11532, [4268]);
   (11533, [4269]); (11534, [4270]); (11535, [4271]); (11536, [4272]); (11537, [4273]);
   (11538, [4274]); (11539, [4275]); (11540, [4276]); (11541, [4277]); (11542, [4278]);
   (11543, [4279]); (11544, [4280]); (11545, [4281]); (11546, [4282]); (11547, [4283]);
   (11548, [4284]); (11549, [4285]); (11550, [4286]); (11551, [4287]); (11552, [4288]);
   (11553, [4289]); (11554, [4290]); (11555, [4291]); (11556, [4292]); (11557, [4293]);
   (11559, [4295]); (11565, [4301]); (42561, [42560]); (42563, [42562]); (42565, [42564]);
   (42567, [42566]); (42569, [42568]); (42571, [42570]); (42573, [42572]);
   (42575, [42574]); (42577, [42576]); (42579, [42578]); (42581, [42580]);
   (42583, [42582]); (42585, [42584]); (42587, [42586]); (42589, [42588]);
   (42591, [42590]); (42593, [42592]); (42595, [42594]); (42597, [42596]);
   (42599, [42598]); (42601, [42600]); (42603, [42602]); (42605, [42604]);
   (42625, [42624]); (42627, [42626]); (42629, [42628]); (42631, [42630]);
   (42633, [42632]); (42635, [42634]); (42637, [42636]); (42639, [42638]);
   (42641, [42640]); (42643, [42642]); (42645, [42644]); (42647, [42646]);
   (42649, [42648]); (42651, [42650]); (42787, [42786]); (42789, [42788]);
   (42791, [42790]); (42793, [42792]); (42795, [42794]); (42797, [42796]);
   (42799, [42798]); (42803, [42802]); (42805, [42804]); (42807, [42806]);
   (42809, [42808]); (42811, [42810]); (42813, [42812]); (42815, [42814]);
   (42817, [42816]); (42819, [42818]); (42821, [42820]); (42823, [42822]);
   (42825, [42824]); (42827, [42826]); (42829, [42828]); (42831, [42830]);
   (42833, [42832]); (42835, [42834]); (42837, [42836]); (42839, [42838]);
   (42841, [42840]); (42843, [42842]); (42845, [42844]); (42847, [42846]);
   (42849, [42848]); (42851, [42850]); (42853, [42852]); (42855, [42854]);
   (42857, [42856]); (42859, [42858]); (42861, [42860]); (42863, [42862]);
   (42874, [42873]); (42876, [42875]); (42879, [42878]); (42881, [42880]);
   (42883, [42882]); (42885, [42884]); (42887, [42886]); (42892, [42891]);
   (42897, [42896]); (42899, [42898]); (42900, [42948]); (42903, [42902]);
   (42905, [42904]); (42907, [42906]); (42909, [42908]); (42911, [42910]);
   (42913, [42912]); (42915, [42914]); (42917, [42916]); (42919, [42918]);
   (42921, [42920]); (42933, [42932]); (42935, [42934]); (42937, [42936]);
   (42939, [42938]); (42941, [42940]); (42943, [42942]); (42945, [42944]);
   (42947, [42946]); (42952, [42951]); (42954, [42953]); (42961, [42960]);
   (42967, [42966]); (42969, [42968]); (42998, [42997]); (43859, [42931]); (43888, [5024]);
   (43889, [5025]); (43890, [5026]); (43891, [5027]); (43892, [5028]); (43893, [5029]);
   (43894, [5030]); (43895, [5031]); (43896, [5032]); (43897, [5033]); (43898, [5034]);
   (43899, [5035]); (43900, [5036]); (43901, [5037]); (43902, [5038]); (43903, [5039]);
   (43904, [5040]); (43905, [5041]); (43906, [5042]); (43907, [5043]); (43908, [5044]);
   (43909, [5045]); (43910, [5046]); (43911, [5047]); (43912, [5048]); (43913, [5049]);
   (43914, [5050]); (43915, [5051]); (43916, [5052]); (43917, [5053]); (43918, [5054]);
   (43919, [5055]); (43920, [5056]); (43921, [5057]); (43922, [5058]); (43923, [5059]);
   (43924, [5060]); (43925, [5061]); (43926, [5062]); (43927, [5063]); (43928, [5064]);
   (43929, [5065]); (43930, [5066]); (43931, [5067]); (43932, [5068]); (43933, [5069]);
   (43934, [5070]); (43935, [5071]); (43936, [5072]); (43937, [5073]); (43938, [5074]);
   (43939, [5075]); (43940, [5076]); (43941, [5077]); (43942, [5078]); (43943, [5079]);
   (43944, [5080]); (43945, [5081]); (43946, [5082]); (43947, [5083]); (43948, [5084]);
   (43949, [5085]); (43950, [5086]); (43951, [5087]); (43952, [5088]); (43953, [5089]);
   (43954, [5090]); (43955, [5091]); (43956, [5092]); (43957, [5093]); (43958, [5094]);
   (43959, [5095]); (43960, [5096]); (43961, [5097]); (43962, [5098]); (43963, [5099]);
   (43964, [5100]); (43965, [5101]); (43966, [5102]); (43967, [5103]); (64256, [70; 70]);
   (64257, [70; 73]); (64258, [70; 76]); (64259, [70; 70; 73]); (64260, [70; 70; 76]);
   (64261, [83; 84]); (64262, [83; 84]); (64275, [1348; 1350]); (64276, [1348; 1333]);
   (64277, [1348; 1339]); (64278, [1358; 1350]); (64279, [1348; 1341]); (65345, [65313]);
   (65346, [65314]); (65347, [65315]); (65348, [65316]); (65349, [65317]);
   (65350, [65318]); (65351, [65319]); (65352, [65320]); (65353, [65321]);
   (65354, [65322]); (65355, [65323]); (65356, [65324]); (65357, [65325]);
   (65358, [65326]); (65359, [65327]); (65360, [65328]); (65361, [65329]);
   (65362, [65330]); (65363, [65331]); (65364, [65332]); (65365, [65333]);
   (65366, [65334]); (65367, [65335]); (65368, [65336]); (65369, [65337]);
   (65370, [65338]); (66600, [66560]); (66601, [66561]); (66602, [66562]);
   (66603, [66563]); (66604, [66564]); (66605, [66565]); (66606, [66566]);
   (66607, [66567]); (66608, [66568]); (66609, [66569]); (66610, [66570]);
   (66611, [66571]); (66612, [66572]); (66613, [66573]); (66614, [66574]);
   (66615, [66575]); (66616, [66576]); (66617, [66577]); (66618, [66578]);
   (66619, [66579]); (66620, [66580]); (66621, [66581]); (66622, [66582]);
   (66623, [66583]); (66624, [66584]); (66625, [66585]); (66626, [66586]);
   (66627, [66587]); (66628, [66588]); (66629, [66589]); (66630, [66590]);
   (66631, [66591]); (66632, [66592]); (66633, [66593]); (66634, [66594]);
   (66635, [66595]); (66636, [66596]); (66637, [66597]); (66638, [66598]);
   (66639, [66599]); (66776, [66736]); (66777, [66737]); (66778, [66738]);
   (66779, [66739]); (66780, [66740]); (66781, [66741]); (66782, [66742]);
   (66783, [66743]); (66784, [66744]); (66785, [66745]); (66786, [66746]);
   (66787, [66747]); (66788, [66748]); (66789, [66749]); (66790, [66750]);
   (66791, [66751]); (66792, [66752]); (66793, [66753]); (66794, [66754]);
   (66795, [66755]); (66796, [66756]); (66797, [66757]); (66798, [66758]);
   (66799, [66759]); (66800, [66760]); (66801, [66761]); (66802, [66762]);
   (66803, [66763]); (66804, [66764]); (66805, [66765]); (66806, [66766]);
   (66807, [66767]); (66808, [66768]); (66809, [66769]); (66810, [66770]);
   (66811, [66771]); (66967, [66928]); (66968, [66929]); (66969, [66930]);
   (66970, [66931]); (66971, [66932]); (66972, [66933]); (66973, [66934]);
   (66974, [66935]); (66975, [66936]); (66976, [66937]); (66977, [66938]);
   (66979, [66940]); (66980, [66941]); (66981, [66942]); (66982, [66943]);
   (66983, [66944]); (66984, [66945]); (66985, [66946]); (66986, [66947]);
   (66987, [66948]); (66988, [66949]); (66989, [66950]); (66990, [66951]);
   (66991, [66952]); (66992, [66953]); (66993, [66954]); (66995, [66956]);
   (66996, [66957]); (66997, [66958]); (66998, [66959]); (66999, [66960]);
   (67000, [66961]); (67001, [66962]); (67003, [66964]); (67004, [66965]);
   (68800, [68736]); (68801, [68737]); (68802, [68738]); (68803, [68739]);
   (68804, [68740]); (68805, [68741]); (68806, [68742]); (68807, [68743]);
   (68808, [68744]); (68809, [68745]); (68810, [68746]); (68811, [68747]);
   (68812, [68748]); (68813, [68749]); (68814, [68750]); (68815, [68751]);
   (68816, [68752]); (68817, [68753]); (68818, [68754]); (68819, [68755]);
   (68820, [68756]); (68821, [68757]); (68822, [68758]); (68823, [68759]);
   (68824, [68760]); (68825, [68761]); (68826, [68762]); (68827, [68763]);
   (68828, [68764]); (68829, [68765]); (68830, [68766]); (68831, [68767]);
   (68832, [68768]); (68833, [68769]); (68834, [68770]); (68835, [68771]);
   (68836, [68772]); (68837, [68773]); (68838, [68774]); (68839, [68775]);
   (68840, [68776]); (68841, [68777]); (68842, [68778]); (68843, [68779]);
   (68844, [68780]); (68845, [68781]); (68846, [68782]); (68847, [68783]);
   (68848, [68784]); (68849, [68785]); (68850, [68786]); (71872, [71840]);
   (71873, [71841]); (71874, [71842]); (71875, [71843]); (71876, [71844]);
   (71877, [71845]); (71878, [71846]); (71879, [71847]); (71880, [71848]);
   (71881, [71849]); (71882, [71850]); (71883, [71851]); (71884, [71852]);
   (71885, [71853]); (71886, [71854]); (71887, [71855]); (71888, [71856]);
   (71889, [71857]); (71890, [71858]); (71891, [71859]); (71892, [71860]);
   (71893, [71861]); (71894, [71862]); (71895, [71863]); (71896, [71864]);
   (71897, [71865]); (71898, [71866]); (71899, [71867]); (71900, [71868]);
   (71901, [71869]); (71902, [71870]); (71903, [71871]); (93792, [93760]);
   (93793, [93761]); (93794, [93762]); (93795, [93763]); (93796, [93764]);
   (93797, [93765]); (93798, [93766]); (93799, [93767]); (93800, [93768]);
   (93801, [93769]); (93802, [93770]); (93803, [93771]); (93804, [93772]);
   (93805, [93773]); (93806, [93774]); (93807, [93775]); (93808, [93776]);
   (93809, [93777]); (93810, [93778]); (93811, [93779]); (93812, [93780]);
   (93813, [93781]); (93814, [93782]); (93815, [93783]); (93816, [93784]);
   (93817, [93785]); (93818, [93786]); (93819, [93787]); (93820, [93788]);
   (93821, [93789]); (93822, [93790]); (93823, [93791]); (125218, [125184]);
   (125219, [125185]); (125220, [125186]); (125221, [125187]); (125222, [125188]);
   (125223, [125189]); (125224, [125190]); (125225, [125191]); (125226, [125192]);
   (125227, [125193]); (125228, [125194]); (125229, [125195]); (125230, [125196]);
   (125231, [125197]); (125232, [125198]); (125233, [125199]); (125234, [125200]);
   (125235, [125201]); (125236, [125202]); (125237, [125203]); (125238, [125204]);
   (125239, [125205]); (125240, [125206]); (125241, [125207]); (125242, [125208]);
   (125243, [125209]); (125244, [125210]); (125245, [125211]); (125246, [125212]);
   (125247, [125213]); (125248, [125214]); (125249, [125215]); (125250, [125216]);
   (125251, [125217])]%N.

Fixpoint assoc (c : N) (table : list (N * list N)) : option (list N) :=
  match table with
  | [] => None
  | (c', u) :: rest => if N.eqb c' c then Some u else assoc c rest
  end.

Definition upper_codepoint (c : N) : list N :=
  match assoc c upper_table with
  | Some u => u
  | None => [c]
  end.

(** [s.upper()] *)
Fixpoint upper (s : codepoints) : codepoints :=
  match s with
  | [] => []
  | c :: rest => (upper_codepoint c ++ upper rest)%list
  end.

(** [s == t] on two [str] *)
Fixpoint eqb (s t : codepoints) : bool :=
  match s, t with
  | [], [] => true
  | a :: s', b :: t' => N.eqb a b && eqb s' t'
  | _, _ => false
  end.

(** Truthiness of a [str] given by its code points. *)
Definition nonempty (s : codepoints) : bool :=
  match s with
  | [] => false
  | _ :: _ => true
  end.

(** [s.split(sep)] for a one-character separator: never an empty list,
    one more segment than there are separators. *)
Fixpoint split (sep : ascii) (s : string) : list string :=
  match s with
  | EmptyString => [EmptyString]
  | String c rest =>
      if Ascii.eqb c sep then EmptyString :: split sep rest
      else match split sep rest with
           | [] => [String c EmptyString]
           | seg :: segs => String c seg :: segs
           end
  end.

(** [s.replace(old, new)] for a one-character [old]. *)
Fixpoint replace (old : ascii) (new : string) (s : string) : string :=
  match s with
  | EmptyString => EmptyString
  | String c rest =>
      if Ascii.eqb c old then new ++ replace old new rest
      else String c (replace old new rest)
  end.

Fixpoint drop (k : nat) (s : string) : string :=
  match k, s with
  | O, _ => s
  | S _, EmptyString => EmptyString
  | S k', String _ rest => drop k' rest
  end.

(** [s[-n:]] for [n > 0]: the whole string when it has at most [n]
    characters, its last [n] characters otherwise. *)
Definition slice_last (n : nat) (s : string) : string :=
  drop (len s - n) s.

(** [str(z)] for an int. *)
Definition of_Z (z : Z) : string := NilZero.string_of_int (Z.to_int z).

(** [str(n)] for a length. *)
Definition of_nat (n : nat) : string := of_Z (Z.of_nat n).

(** Truthiness of a string: empty strings are falsy. *)
Definition truthy (s : string) : bool := negb (String.eqb s EmptyString).

(** Truthiness of an [Optional[str]]: [None] and [""] are falsy. *)
Definition truthy_opt (o : option string) : bool :=
  match o with
  | Some s => truthy s
  | None => false
  end.

(** [a or b] where [a : Optional[str]] and [b : str]. *)
Definition or_else (a : option string) (b : string) : string :=
  match a with
  | Some s => if truthy s then s else b
  | None => b
  end.

(** Comparison up to the case of the letters a-z, code point by code
    point.  This is the reading of "equal case-insensitively"; it is not
    used by the embedding of the code, only compared with it. *)
Definition is_lower (c : N) : bool := (97 <=? c)%N && (c <=? 122)%N.

Definition same_letter (a b : N) : bool :=
  N.eqb a b
  || (is_lower a && N.eqb (a - 32) b)
  || (is_lower b && N.eqb (b - 32) a).

Fixpoint eq_ignore_case (s t : codepoints) : bool :=
  match s, t with
  | [], [] => true
  | a :: s', b :: t' => same_letter a b && eq_ignore_case s' t'
  | _, _ => false
  end.

(** The dotless i (U+0131) read as the letter i. *)
Definition undotted (c : N) : N := if N.eqb c 305 then 105%N else c.

(** Number of occurrences of a character. *)
Fixpoint count (c : ascii) (s : string) : nat :=
  match s with
  | EmptyString => 0
  | String x rest => (if Ascii.eqb x c then 1 else 0) + count c rest
  end.

End PyStr.

(** ** Python values, dictionaries, exceptions *)

Inductive pyval : Type :=
| PyNone
| PyInt (z : Z)
| PyStr (s : string).

Definition dict : Type := list (string * pyval).

(** [d.get(k)]: the value stored under [k], [None] when the key is absent. *)
Fixpoint dict_get (d : dict) (k : string) : pyval :=
  match d with
  | [] => PyNone
  | (k', v) :: rest => if String.eqb k' k then v else dict_get rest k
  end.

Definition py_truthy (v : pyval) : bool :=
  match v with
  | PyNone => false
  | PyInt z => negb (Z.eqb z 0)
  | PyStr s => PyStr.truthy s
  end.

(** [str(v)], as an f-string renders it. *)
Definition py_str (v : pyval) : string :=
  match v with
  | PyNone => "None"
  | PyInt z => PyStr.of_Z z
  | PyStr s => s
  end.

(** [n != v] for an int [n]: values of another type are never equal to it. *)
Definition int_ne (n : Z) (v : pyval) : bool :=
  match v with
  | PyInt z => negb (Z.eqb n z)
  | _ => true
  end.

(** Exceptions.  [ResourceDoesNotExist] stands for the class of
    [databricks.sdk.errors.platform] and its subclasses; [ExternalError] for
    any other exception a collaborator raises. *)
Inductive exn : Type :=
| ValueError (msg : string)
| AttributeError (msg : string)
| IndexError (msg : string)
| UnboundLocalError (msg : string)
| ResourceDoesNotExist (msg : string)
| ExternalError (cls msg : string).

(** What [except ResourceDoesNotExist] catches. *)
Definition is_ResourceDoesNotExist (e : exn) : bool :=
  match e with
  | ResourceDoesNotExist _ => true
  | _ => false
  end.

(** Configuration errors are raised as [ValueError]. *)
Definition is_configuration_error (e : exn) : bool :=
  match e with
  | ValueError _ => true
  | _ => false
  end.

Inductive result (A : Type) : Type :=
| Ok (a : A)
| Raise (e : exn).
Arguments Ok {A} a.
Arguments Raise {A} e.

(** ** Data model *)

(** A document: a mapping from column name to value ([document_class=dict]). *)
Definition Document : Type := dict.

(** What the source reads of an [IndexDetails]: the managed-embeddings test
    and the [embedding_vector_column] dictionary. *)
Record IndexDetails : Type := {
  is_databricks_managed_embeddings : bool;
  embedding_vector_column : dict
}.

(** The input type handed to the schema builder. *)
Inductive input_model : Type :=
| VectorSearchRetrieverToolInput.

(** The tool descriptor built by [pydantic_function_tool]: a function tool
    with the given name and description and the input type's schema. *)
Record ChatCompletionToolParam : Type := {
  function_name : string;
  function_description : string;
  function_parameters : input_model
}.

Definition pydantic_function_tool
    (model : input_model) (name description : string) : ChatCompletionToolParam :=
  {| function_name := name;
     function_description := description;
     function_parameters := model |}.

(** Keyword arguments of [similarity_search]. *)
Record SearchArgs : Type := {
  arg_columns : option (list string);
  arg_query_text : option string;
  arg_query_vector : option (list float);
  arg_filters : option dict;
  arg_num_results : Z;
  arg_query_type : option PyStr.codepoints
}.

(** An OpenAI client: its credential and its embeddings endpoint.  The
    endpoint returns the [embedding] of each entry of the response's [data]. *)
Record OpenAI : Type := {
  api_key : option string;
  embeddings_create : string -> option string -> result (list (list float))
}.

Section Model.

(** Opaque objects of the collaborators. *)
Context {VectorSearchIndex SearchResponse Resource : Type}.

(** The object: the fields of the mixin and of the class, and the two
    private attributes, which do not exist before validation. *)
Record VectorSearchRetrieverTool : Type := {
  index_name : string;
  num_results : Z;
  columns : option (list string);
  filters : option dict;
  query_type : option PyStr.codepoints;
  tool_name : option string;
  tool_description : option string;
  resources : option (list Resource);
  text_column : option string;
  embedding_model_name : option string;
  tool : option ChatCompletionToolParam;
  _index : option VectorSearchIndex;
  _index_details : option IndexDetails
}.

Definition set_text_column (v : option string) (o : VectorSearchRetrieverTool) :=
  {| index_name := index_name o; num_results := num_results o;
     columns := columns o; filters := filters o; query_type := query_type o;
     tool_name := tool_name o; tool_description := tool_description o;
     resources := resources o; text_column := v;
     embedding_model_name := embedding_model_name o; tool := tool o;
     _index := _index o; _index_details := _index_details o |}.

Definition set_columns (v : option (list string)) (o : VectorSearchRetrieverTool) :=
  {| index_name := index_name o; num_results := num_results o;
     columns := v; filters := filters o; query_type := query_type o;
     tool_name := tool_name o; tool_description := tool_description o;
     resources := resources o; text_column := text_column o;
     embedding_model_name := embedding_model_name o; tool := tool o;
     _index := _index o; _index_details := _index_details o |}.

Definition set_tool (v : option ChatCompletionToolParam) (o : VectorSearchRetrieverTool) :=
  {| index_name := index_name o; num_results := num_results o;
     columns := columns o; filters := filters o; query_type := query_type o;
     tool_name := tool_name o; tool_description := tool_description o;
     resources := resources o; text_column := text_column o;
     embedding_model_name := embedding_model_name o; tool := v;
     _index := _index o; _index_details := _index_details o |}.

Definition set_resources (v : option (list Resource)) (o : VectorSearchRetrieverTool) :=
  {| index_name := index_name o; num_results := num_results o;
     columns := columns o; filters := filters o; query_type := query_type o;
     tool_name := tool_name o; tool_description := tool_description o;
     resources := v; text_column := text_column o;
     embedding_model_name := embedding_model_name o; tool := tool o;
     _index := _index o; _index_details := _index_details o |}.

Definition set__index (v : option VectorSearchIndex) (o : VectorSearchRetrieverTool) :=
  {| index_name := index_name o; num_results := num_results o;
     columns := columns o; filters := filters o; query_type := query_type o;
     tool_name := tool_name o; tool_description := tool_description o;
     resources := resources o; text_column := text_column o;
     embedding_model_name := embedding_model_name o; tool := tool o;
     _index := v; _index_details := _index_details o |}.

Definition set__index_details (v : option IndexDetails) (o : VectorSearchRetrieverTool) :=
  {| index_name := index_name o; num_results := num_results o;
     columns := columns o; filters := filters o; query_type := query_type o;
     tool_name := tool_name o; tool_description := tool_description o;
     resources := resources o; text_column := text_column o;
     embedding_model_name := embedding_model_name o; tool := tool o;
     _index := _index o; _index_details := v |}.

(** Calls that leave the process, and log records. *)
Inductive event : Type :=
| GetIndex (name : string)
| ServingEndpointsGet (name : option string)
| EmbeddingsCreate (input : string) (model : option string)
| SimilaritySearch (index : VectorSearchIndex) (args : SearchArgs)
| LogWarning (msg : string).

(** The collaborators.  Each oracle gives the outcome of the call the
    source makes; [_get_resources] and [_get_default_tool_description]
    are methods of the mixin, the validators and the parser are functions
    of [databricks_ai_bridge.utils.vector_search]. *)
Record World : Type := {
  VectorSearchClient : result unit;
  get_index : string -> result VectorSearchIndex;
  new_IndexDetails : VectorSearchIndex -> result IndexDetails;
  validate_and_get_text_column :
    option string -> IndexDetails -> result (option string);
  validate_and_get_return_columns :
    list string -> option string -> IndexDetails -> result (list string);
  _get_default_tool_description : IndexDetails -> result string;
  import_WorkspaceClient : result unit;
  import_ResourceDoesNotExist : result unit;
  WorkspaceClient : result unit;
  serving_endpoints_get : option string -> result unit;
  _get_resources : string -> option string -> list Resource;
  new_OpenAI : result OpenAI;
  similarity_search : VectorSearchIndex -> SearchArgs -> result SearchResponse;
  parse_vector_search_response :
    SearchResponse -> IndexDetails -> option string ->
    result (list (Document * float))
}.

(** ** The monad: the object, the trace, and exceptions *)

Definition state : Type := (VectorSearchRetrieverTool * list event)%type.

Definition M (A : Type) : Type := state -> result A * state.

Definition ret {A} (a : A) : M A := fun st => (Ok a, st).

Definition bind {A B} (m : M A) (k : A -> M B) : M B :=
  fun st =>
    match m st with
    | (Ok a, st') => k a st'
    | (Raise e, st') => (Raise e, st')
    end.

Definition raise {A} (e : exn) : M A := fun st => (Raise e, st).

(** The outcome of a call that was made. *)
Definition lift {A} (r : result A) : M A := fun st => (r, st).

Definition emit (ev : event) : M unit :=
  fun st => (Ok tt, (fst st, (snd st ++ [ev])%list)).

Definition get_self : M VectorSearchRetrieverTool :=
  fun st => (Ok (fst st), st).

Definition modify (f : VectorSearchRetrieverTool -> VectorSearchRetrieverTool) : M unit :=
  fun st => (Ok tt, (f (fst st), snd st)).

(** Reading a private attribute that was never set. *)
Definition private_attr {A} (name : string) (o : option A) : M A :=
  match o with
  | Some a => ret a
  | None => raise (AttributeError name)
  end.

End Model.

Arguments VectorSearchRetrieverTool : clear implicits.
Arguments event : clear implicits.
Arguments World : clear implicits.
Arguments state : clear implicits.
Arguments M : clear implicits.

Declare Scope py_scope.
Delimit Scope py_scope with py.
Notation "x <- m ;; k" := (bind m (fun x => k))
  (at level 100, m at next level, right associativity) : py_scope.
Notation "m ;; k" := (bind m (fun _ => k))
  (at level 100, right associativity) : py_scope.

(** ** The program *)

Section Program.

Context {VectorSearchIndex SearchResponse Resource : Type}.
Variable W : World VectorSearchIndex SearchResponse Resource.

Local Abbreviation Tool := (VectorSearchRetrieverTool VectorSearchIndex Resource).
Local Abbreviation Py := (M VectorSearchIndex Resource).
Local Open Scope py_scope.

(** [try: body  except <class>: handler], once the class name is bound. *)
Definition try_except {A} (body : Py A) (catches : exn -> bool) (handler : Py A) : Py A :=
  fun st =>
    match body st with
    | (Raise e, st') => if catches e then handler st' else (Raise e, st')
    | (Ok a, st') => (Ok a, st')
    end.

Definition index_format_message (name : string) : string :=
  "Index name " ++ name ++ " is not in the expected format 'catalog.schema.index'.".

Definition embedding_model_required_message : string :=
  "The embedding model name is required for non-Databricks-managed " ++
  "embeddings Vector Search indexes in order to generate embeddings for retrieval queries.".

Definition too_long_message (tool_name : string) : string :=
  "Tool name " ++ tool_name ++ " is too long, truncating to 64 characters "
  ++ PyStr.slice_last 64 tool_name ++ ".".

Definition api_key_required_message : string :=
  "OpenAI API key is required to generate embeddings for retrieval queries.".

Definition dimension_mismatch_message (expected : pyval) (got : nat) : string :=
  "Expected embedding dimension " ++ py_str expected ++ " but got " ++ PyStr.of_nat got.

(** The local function [get_tool_name] (lines 118-125). *)
Definition get_tool_name : Py string :=
  self <- get_self ;;
  let tool_name :=
    PyStr.or_else (tool_name self) (PyStr.replace "."%char "__" (index_name self)) in
  if (64 <? PyStr.len tool_name)%nat then
    emit (LogWarning (too_long_message tool_name)) ;;
    ret (PyStr.slice_last 64 tool_name)
  else ret tool_name.

(** [self.tool_description or self._get_default_tool_description(...)]:
    the default is computed only when the override is falsy. *)
Definition get_tool_description : Py string :=
  self <- get_self ;;
  let default :=
    details <- private_attr "_index_details" (_index_details self) ;;
    lift (_get_default_tool_description W details) in
  match tool_description self with
  | Some s => if PyStr.truthy s then ret s else default
  | None => default
  end.

(** Lines 95-132 of [_validate_tool_inputs]: the identifier check, the
    index lookup, the column validators, the embedding-model check and
    the tool descriptor. *)
Definition validate_and_build_tool : Py unit :=
  self <- get_self ;;
  let splits := PyStr.split "."%char (index_name self) in
  if negb (length splits =? 3)%nat then
    raise (ValueError (index_format_message (index_name self)))
  else
    lift (VectorSearchClient W) ;;
    emit (GetIndex (index_name self)) ;;
    index <- lift (get_index W (index_name self)) ;;
    modify (set__index (Some index)) ;;
    details <- lift (new_IndexDetails W index) ;;
    modify (set__index_details (Some details)) ;;
    self <- get_self ;;
    tc <- lift (validate_and_get_text_column W (text_column self) details) ;;
    modify (set_text_column tc) ;;
    self <- get_self ;;
    cols <- lift (validate_and_get_return_columns W
                    (match columns self with Some cs => cs | None => [] end)
                    (text_column self) details) ;;
    modify (set_columns (Some cols)) ;;
    self <- get_self ;;
    if negb (is_databricks_managed_embeddings details)
       && negb (PyStr.truthy_opt (embedding_model_name self))
    then raise (ValueError embedding_model_required_message)
    else
      name <- get_tool_name ;;
      description <- get_tool_description ;;
      modify (set_tool (Some (pydantic_function_tool
                                VectorSearchRetrieverToolInput name description))).

(** Lines 134-141: the [try] block.  [ResourceDoesNotExist] is a local
    name bound by the second import; when an import fails, matching the
    exception against the unbound name raises [UnboundLocalError]. *)
Definition enrich_resources : Py unit :=
  match import_WorkspaceClient W, import_ResourceDoesNotExist W with
  | Ok _, Ok _ =>
      try_except
        (lift (WorkspaceClient W) ;;
         self <- get_self ;;
         emit (ServingEndpointsGet (embedding_model_name self)) ;;
         lift (serving_endpoints_get W (embedding_model_name self)) ;;
         self <- get_self ;;
         modify (set_resources
                   (Some (_get_resources W (index_name self) (embedding_model_name self)))))
        is_ResourceDoesNotExist
        (self <- get_self ;;
         modify (set_resources (Some (_get_resources W (index_name self) None))))
  | _, _ => raise (UnboundLocalError "ResourceDoesNotExist")
  end.

(** [_validate_tool_inputs], the [model_validator(mode="after")] hook. *)
Definition _validate_tool_inputs : Py Tool :=
  validate_and_build_tool ;;
  enrich_resources ;;
  get_self.

(** [self.query_type and self.query_type.upper() == "HYBRID"] *)
Definition is_hybrid (query_type : option PyStr.codepoints) : bool :=
  match query_type with
  | Some s => PyStr.nonempty s && PyStr.eqb (PyStr.upper s) (PyStr.of_ascii "HYBRID")
  | None => false
  end.

(** Lines 164-188 of [execute]: the query text and the query vector. *)
Definition query_text_and_vector (query : string) (openai_client : option OpenAI)
  : Py (option string * option (list float)) :=
  self <- get_self ;;
  details <- private_attr "_index_details" (_index_details self) ;;
  if is_databricks_managed_embeddings details then ret (Some query, None)
  else
    oai_client <- match openai_client with
                  | Some c => ret c
                  | None => lift (new_OpenAI W)
                  end ;;
    if negb (PyStr.truthy_opt (api_key oai_client)) then
      raise (ValueError api_key_required_message)
    else
      let query_text := if is_hybrid (query_type self) then Some query else None in
      emit (EmbeddingsCreate query (embedding_model_name self)) ;;
      data <- lift (embeddings_create oai_client query (embedding_model_name self)) ;;
      query_vector <- match data with
                      | v :: _ => ret v
                      | [] => raise (IndexError "list index out of range")
                      end ;;
      let index_embedding_dimension :=
        dict_get (embedding_vector_column details) "embedding_dimension" in
      if py_truthy index_embedding_dimension
         && int_ne (Z.of_nat (length query_vector)) index_embedding_dimension
      then raise (ValueError (dimension_mismatch_message
                                index_embedding_dimension (length query_vector)))
      else ret (query_text, Some query_vector).

(** [[doc for doc, _ in docs_with_score]] *)
Fixpoint documents_of (docs_with_score : list (Document * float)) : list Document :=
  match docs_with_score with
  | [] => []
  | (doc, _) :: rest => doc :: documents_of rest
  end.

Definition search_args (self : Tool) (query_text : option string)
    (query_vector : option (list float)) : SearchArgs :=
  {| arg_columns := columns self;
     arg_query_text := query_text;
     arg_query_vector := query_vector;
     arg_filters := filters self;
     arg_num_results := num_results self;
     arg_query_type := query_type self |}.

(** [execute].  The tracing decorator wraps the call for observability
    and takes no part in the control flow. *)
Definition execute (query : string) (openai_client : option OpenAI) : Py (list Document) :=
  tv <- query_text_and_vector query openai_client ;;
  self <- get_self ;;
  index <- private_attr "_index" (_index self) ;;
  emit (SimilaritySearch index (search_args self (fst tv) (snd tv))) ;;
  search_resp <- lift (similarity_search W index (search_args self (fst tv) (snd tv))) ;;
  details <- private_attr "_index_details" (_index_details self) ;;
  docs_with_score <- lift (parse_vector_search_response W search_resp details
                             (text_column self)) ;;
  ret (documents_of docs_with_score).

End Program.

(** ** Reading an outcome *)

Definition outcome_of {A S : Type} (r : result A * S) : result A := fst r.

Definition self_of {A T E : Type} (r : result A * (T * E)) : T := fst (snd r).

Definition trace_of {A T E : Type} (r : result A * (T * E)) : E := snd (snd r).

(** ** Readings of the specification, to compare the code with *)

(** [sep.join(segments)] *)
Fixpoint join (sep : string) (segments : list string) : string :=
  match segments with
  | [] => ""
  | [s] => s
  | s :: rest => s ++ sep ++ join sep rest
  end.

(** The letters of HYBRID. *)
Definition is_hybrid_letter (x : N) : bool :=
  existsb (N.eqb x) (PyStr.of_ascii "HYBRID").

(** What the comparison with HYBRID needs of an entry of the table: it is
    not empty, and if it is made of letters of HYBRID only, it is one
    capital letter, the entry of its small letter or, for I, of the
    dotless i. *)
Definition entry_checked (entry : N * list N) : bool :=
  PyStr.nonempty (snd entry)
  && (if forallb is_hybrid_letter (snd entry)
      then match snd entry with
           | [x] => PyStr.same_letter (PyStr.undotted (fst entry)) x
           | _ => false
           end
      else true).

(** "The query-type flag equals HYBRID case-insensitively", as the claim
    words it; an unset flag does not. *)
Definition flag_equals_hybrid_ignoring_case (query_type : option PyStr.codepoints)
  : bool :=
  match query_type with
  | Some s => PyStr.eq_ignore_case s (PyStr.of_ascii "HYBRID")
  | None => false
  end.

(** "The query-type flag upper-cases to HYBRID": it spells HYBRID in any
    letter case, a dotless i being accepted for the i; an unset flag does
    not. *)
Definition flag_is_hybrid (query_type : option PyStr.codepoints) : bool :=
  match query_type with
  | Some s => PyStr.eq_ignore_case (map PyStr.undotted s) (PyStr.of_ascii "HYBRID")
  | None => false
  end.

(** "The index identifier with each dot replaced by a double underscore":
    its dot-separated segments joined by [__]. *)
Definition dots_to_double_underscores (index_name : string) : string :=
  join "__" (PyStr.split "."%char index_name).

(** The tool name before truncation, as the claim words it: the override
    when one is given, else the rewritten identifier. *)
Definition name_as_claimed (tool_name : option string) (index_name : string) : string :=
  match tool_name with
  | Some s => s
  | None => dots_to_double_underscores index_name
  end.

(** The same with an empty override counted as none. *)
Definition name_before_truncation (tool_name : option string) (index_name : string)
  : string :=
  match tool_name with
  | Some (String c s) => String c s
  | _ => dots_to_double_underscores index_name
  end.

(** The expected embedding dimension an index declares. *)
Definition declared_dimension (details : IndexDetails) : pyval :=
  dict_get (embedding_vector_column details) "embedding_dimension".

(** "The computed vector passes the dimension check": the index declares
    no dimension, or the vector has the declared one. *)
Definition dimension_accepted (details : IndexDetails) (v : list float) : Prop :=
  py_truthy (declared_dimension details) = false
  \/ declared_dimension details = PyInt (Z.of_nat (length v)).

(** The client [execute] embeds with: the caller's, else a default one. *)
Definition client_used {I R Res : Type} (W : World I R Res)
    (openai_client : option OpenAI) : result OpenAI :=
  match openai_client with
  | Some c => Ok c
  | None => new_OpenAI W
  end.

(** ** Concrete collaborators, for the examples *)

Definition doc_a : Document := [("id", PyInt 1); ("text", PyStr "a")].
Definition doc_b : Document := [("id", PyInt 2); ("text", PyStr "b")].

Definition scored_rows : list (Document * float) :=
  [(doc_a, 0.9%float); (doc_b, 0.5%float)].

Definition details_with (managed : bool) (dimension : pyval) : IndexDetails :=
  {| is_databricks_managed_embeddings := managed;
     embedding_vector_column :=
       [("name", PyStr "vec"); ("embedding_dimension", dimension)] |}.

(** A workspace whose index handles are index names, whose search response
    is the list of scored rows, and whose resources are names. *)
Definition workspace (managed : bool) (dimension : pyval)
    (endpoint : option string -> result unit)
    (sdk client : result unit) : World string (list (Document * float)) string :=
  {| VectorSearchClient := Ok tt;
     get_index := fun name => Ok name;
     new_IndexDetails := fun _ => Ok (details_with managed dimension);
     validate_and_get_text_column := fun tc _ =>
       Ok (match tc with Some c => Some c | None => Some "text" end);
     validate_and_get_return_columns := fun cols _ _ => Ok cols;
     _get_default_tool_description := fun _ => Ok "A vector search-based retrieval tool.";
     import_WorkspaceClient := sdk;
     import_ResourceDoesNotExist := sdk;
     WorkspaceClient := client;
     serving_endpoints_get := endpoint;
     _get_resources := fun index endpoint =>
       index :: match endpoint with Some e => [e] | None => [] end;
     new_OpenAI := Raise (ExternalError "OpenAIError" "The api_key client option must be set");
     similarity_search := fun _ _ => Ok scored_rows;
     parse_vector_search_response := fun resp _ _ => Ok resp |}.

Definition endpoint_found : option string -> result unit := fun _ => Ok tt.

Definition endpoint_missing : option string -> result unit :=
  fun _ => Raise (ResourceDoesNotExist "Endpoint does not exist").

Definition endpoint_denied : option string -> result unit :=
  fun _ => Raise (ExternalError "PermissionDenied" "not authorized").

(** An embedding client with a credential, returning a vector of [n] entries. *)
Definition embedder (n : nat) : OpenAI :=
  {| api_key := Some "sk-test";
     embeddings_create := fun _ _ => Ok [repeat 0.25%float n] |}.

(** A user-constructed configuration, before validation. *)
Definition config (index_name : string) (tool_name embedding_model_name query_type
    : option string) : VectorSearchRetrieverTool string string :=
  {| index_name := index_name; num_results := 5; columns := None; filters := None;
     query_type := option_map PyStr.of_ascii query_type;
     tool_name := tool_name; tool_description := None;
     resources := None; text_column := None;
     embedding_model_name := embedding_model_name; tool := None;
     _index := None; _index_details := None |}.

(** A validated instance over [workspace]. *)
Definition validated (managed : bool) (dimension : pyval)
    (embedding_model_name query_type : option string) : VectorSearchRetrieverTool string string :=
  {| index_name := "cat.sch.idx"; num_results := 5; columns := Some ["id"; "text"];
     filters := None; query_type := option_map PyStr.of_ascii query_type;
     tool_name := None;
     tool_description := None;
     resources := Some ["cat.sch.idx"]; text_column := Some "text";
     embedding_model_name := embedding_model_name;
     tool := Some (pydantic_function_tool VectorSearchRetrieverToolInput
                     "cat__sch__idx" "A vector search-based retrieval tool.");
     _index := Some "cat.sch.idx";
     _index_details := Some (details_with managed dimension) |}.

Definition long_name : string :=
  "an_override_that_is_far_too_long_for_the_sixty_four_character_limit_of_tool_names".

(** ** Further readings of the code *)

(** Characters of the pattern [^[a-zA-Z0-9_-]+$] quoted at lines 116-117. *)
Definition is_tool_name_char (c : ascii) : bool :=
  let n := nat_of_ascii c in
  ((48 <=? n)%nat && (n <=? 57)%nat)
  || ((65 <=? n)%nat && (n <=? 90)%nat)
  || ((97 <=? n)%nat && (n <=? 122)%nat)
  || Ascii.eqb c "_"%char
  || Ascii.eqb c "-"%char.

Fixpoint string_forall (p : ascii -> bool) (s : string) : bool :=
  match s with
  | EmptyString => true
  | String c rest => p c && string_forall p rest
  end.

(** A string the pattern [^[a-zA-Z0-9_-]+$] accepts. *)
Definition matches_tool_name_pattern (s : string) : bool :=
  PyStr.truthy s && string_forall is_tool_name_char s.

(** A character of a dotted identifier whose segments the pattern accepts. *)
Definition is_identifier_char (c : ascii) : bool :=
  is_tool_name_char c || Ascii.eqb c "."%char.

(** [self.columns or []] *)
Definition columns_or_empty {I Res : Type} (self : VectorSearchRetrieverTool I Res)
  : list string :=
  match columns self with
  | Some cs => cs
  | None => []
  end.

(** The description a validation ends with: the override when it is truthy,
    else what the mixin computes from the index details. *)
Definition description_for {I R Res : Type} (W : World I R Res)
    (self : VectorSearchRetrieverTool I Res) (details : IndexDetails) : result string :=
  match tool_description self with
  | Some s => if PyStr.truthy s then Ok s else _get_default_tool_description W details
  | None => _get_default_tool_description W details
  end.

(** The name [get_tool_name] returns and the log records it leaves. *)
Definition returned_tool_name {I Res : Type} (self : VectorSearchRetrieverTool I Res)
  : string :=
  let name := name_before_truncation (tool_name self) (index_name self) in
  if (64 <? PyStr.len name)%nat then PyStr.slice_last 64 name else name.

Definition tool_name_warnings {I Res : Type} (self : VectorSearchRetrieverTool I Res)
  : list (event I) :=
  let name := name_before_truncation (tool_name self) (index_name self) in
  if (64 <? PyStr.len name)%nat then [LogWarning (too_long_message name)] else [].

(** The object lines 95-132 leave behind. *)
Definition built {I Res : Type} (self : VectorSearchRetrieverTool I Res)
    (index : I) (details : IndexDetails) (tc : option string) (cols : list string)
    (description : string) : VectorSearchRetrieverTool I Res :=
  set_tool (Some (pydantic_function_tool VectorSearchRetrieverToolInput
                    (returned_tool_name self) description))
    (set_columns (Some cols)
       (set_text_column tc
          (set__index_details (Some details) (set__index (Some index) self)))).

(** The calls and log records a validation of [self] can make. *)
Definition validation_event {I Res : Type} (self : VectorSearchRetrieverTool I Res)
    (ev : event I) : Prop :=
  ev = GetIndex (index_name self)
  \/ ev = LogWarning (too_long_message
                        (name_before_truncation (tool_name self) (index_name self)))
  \/ ev = ServingEndpointsGet (embedding_model_name self).

(** ** More collaborators, for the examples *)

(** A workspace whose index lookup, search and parser answer as given. *)
Definition answering (managed : bool) (dimension : pyval)
    (lookup : string -> result string)
    (search parsed : result (list (Document * float)))
    (default_description : result string)
  : World string (list (Document * float)) string :=
  {| VectorSearchClient := Ok tt;
     get_index := lookup;
     new_IndexDetails := fun _ => Ok (details_with managed dimension);
     validate_and_get_text_column := fun tc _ =>
       Ok (match tc with Some c => Some c | None => Some "text" end);
     validate_and_get_return_columns := fun cols tc _ =>
       Ok (match tc with Some c => c :: cols | None => cols end);
     _get_default_tool_description := fun _ => default_description;
     import_WorkspaceClient := Ok tt;
     import_ResourceDoesNotExist := Ok tt;
     WorkspaceClient := Ok tt;
     serving_endpoints_get := endpoint_found;
     _get_resources := fun index endpoint =>
       index :: match endpoint with Some e => [e] | None => [] end;
     new_OpenAI := Raise (ExternalError "OpenAIError" "The api_key client option must be set");
     similarity_search := fun _ _ => search;
     parse_vector_search_response := fun _ _ _ => parsed |}.

Definition index_missing : string -> result string :=
  fun _ => Raise (ExternalError "Exception" "Index does not exist").

Definition index_found : string -> result string := fun name => Ok name.

Definition no_description : result string :=
  Raise (ExternalError "KeyError" "index description unavailable").

(** A configuration with a description override. *)
Definition described (description : option string)
    (o : VectorSearchRetrieverTool string string) : VectorSearchRetrieverTool string string :=
  {| index_name := index_name o; num_results := num_results o;
     columns := columns o; filters := filters o; query_type := query_type o;
     tool_name := tool_name o; tool_description := description;
     resources := resources o; text_column := text_column o;
     embedding_model_name := embedding_model_name o; tool := tool o;
     _index := _index o; _index_details := _index_details o |}.

Definition managed_workspace : World string (list (Document * float)) string :=
  workspace true PyNone endpoint_found (Ok tt) (Ok tt).

Definition self_managed_workspace : World string (list (Document * float)) string :=
  workspace false (PyInt 3) endpoint_found (Ok tt) (Ok tt).

Definition managed_instance : VectorSearchRetrieverTool string string :=
  validated true PyNone None (Some "ANN").

Definition self_managed_instance : VectorSearchRetrieverTool string string :=
  validated false (PyInt 3) (Some "emb") (Some "ANN").

Definition tail64 : string :=
  "is_far_too_long_for_the_sixty_four_character_limit_of_tool_names".

(** The flag spelled h, y, b, r, dotless i (U+0131), d. *)
Definition hybrid_with_dotless_i : PyStr.codepoints := [104; 121; 98; 114; 305; 100]%N.

(** An instance with another query type. *)
Definition with_query_type (flag : option PyStr.codepoints)
    (o : VectorSearchRetrieverTool string string) : VectorSearchRetrieverTool string string :=
  {| index_name := index_name o; num_results := num_results o;
     columns := columns o; filters := filters o; query_type := flag;
     tool_name := tool_name o; tool_description := tool_description o;
     resources := resources o; text_column := text_column o;
     embedding_model_name := embedding_model_name o; tool := tool o;
     _index := _index o; _index_details := _index_details o |}.

Definition embedder_without_key : OpenAI :=
  {| api_key := Some "";
     embeddings_create := fun _ _ => Ok [repeat 0.25%float 3] |}.

Definition embedder_failing : OpenAI :=
  {| api_key := Some "sk-test";
     embeddings_create := fun _ _ => Raise (ExternalError "RateLimitError" "429") |}.

Definition embedder_empty : OpenAI :=
  {| api_key := Some "sk-test";
     embeddings_create := fun _ _ => Ok [] |}.

(** * Properties *)

(** ** Strings *)

Lemma split_not_nil (sep : ascii) (s : string) : PyStr.split sep s <> [].
Proof.
  destruct s as [|c rest]; simpl; [discriminate|].
  destruct (Ascii.eqb c sep); [discriminate|].
  destruct (PyStr.split sep rest); discriminate.
Qed.

(** An identifier has three dot-separated segments exactly when it has two
    dots: there is one more segment than there are separators. *)
Lemma split_length (sep : ascii) (s : string) :
  length (PyStr.split sep s) = S (PyStr.count sep s).
Proof.
  induction s as [|c rest IH]; simpl; [reflexivity|].
  destruct (Ascii.eqb c sep); simpl.
  - now rewrite IH.
  - destruct (PyStr.split sep rest) eqn:E; simpl in *; [discriminate IH | exact IH].
Qed.

Lemma join_cons_char (sep : string) (c : ascii) (seg : string) (segs : list string) :
  join sep (String c seg :: segs) = String c (join sep (seg :: segs)).
Proof. destruct segs; reflexivity. Qed.

Lemma replace_is_join (sep : ascii) (new s : string) :
  PyStr.replace sep new s = join new (PyStr.split sep s).
Proof.
  induction s as [|c rest IH]; simpl; [reflexivity|].
  destruct (Ascii.eqb c sep).
  - rewrite IH. destruct (PyStr.split sep rest) eqn:E.
    + now destruct (split_not_nil sep rest).
    + reflexivity.
  - destruct (PyStr.split sep rest) eqn:E.
    + now destruct (split_not_nil sep rest).
    + rewrite join_cons_char, IH. reflexivity.
Qed.

Lemma codepoints_eqb_eq (s t : PyStr.codepoints) : PyStr.eqb s t = true <-> s = t.
Proof.
  revert t. induction s as [|a s IH]; intros [|b t]; simpl; split; intros H;
    try reflexivity; try discriminate H.
  - apply andb_true_iff in H as [Hab Hst]. apply N.eqb_eq in Hab. apply IH in Hst.
    now subst.
  - injection H as -> ->. rewrite N.eqb_refl. now apply IH.
Qed.

Lemma assoc_In (c : N) (u : list N) (table : list (N * list N)) :
  PyStr.assoc c table = Some u -> In (c, u) table.
Proof.
  induction table as [|[c' u'] rest IH]; simpl; [discriminate|].
  destruct (N.eqb_spec c' c) as [->|_].
  - intros H. injection H as ->. now left.
  - intros H. right. now apply IH.
Qed.

Lemma upper_table_checked : forallb entry_checked PyStr.upper_table = true.
Proof. vm_compute. reflexivity. Qed.

Lemma upper_codepoint_not_nil (c : N) : PyStr.upper_codepoint c <> [].
Proof.
  unfold PyStr.upper_codepoint.
  destruct (PyStr.assoc c PyStr.upper_table) as [u|] eqn:E; [|discriminate].
  apply assoc_In in E.
  pose proof (proj1 (forallb_forall _ _) upper_table_checked _ E) as H.
  unfold entry_checked in H. simpl in H. apply andb_true_iff in H as [H _].
  now destruct u.
Qed.

(** Only a letter of HYBRID, in either case, or the dotless i, upper-cases
    into letters of HYBRID. *)
Lemma upper_codepoint_hybrid_letters (c : N) :
  forallb is_hybrid_letter (PyStr.upper_codepoint c) = true ->
  exists x,
    PyStr.upper_codepoint c = [x] /\ PyStr.same_letter (PyStr.undotted c) x = true.
Proof.
  unfold PyStr.upper_codepoint.
  destruct (PyStr.assoc c PyStr.upper_table) as [u|] eqn:E; intros Hu.
  - apply assoc_In in E.
    pose proof (proj1 (forallb_forall _ _) upper_table_checked _ E) as H.
    unfold entry_checked in H. simpl in H. rewrite Hu in H.
    apply andb_true_iff in H as [_ H].
    destruct u as [|x [|y u]]; try discriminate H. now exists x.
  - exists c. split; [reflexivity|].
    simpl in Hu. rewrite andb_true_r in Hu.
    assert (Hc : c <> 305%N).
    { intros ->. vm_compute in Hu. discriminate Hu. }
    unfold PyStr.undotted. destruct (N.eqb_spec c 305); [contradiction|].
    unfold PyStr.same_letter. now rewrite N.eqb_refl.
Qed.

Lemma upper_codepoint_of_letter (c x : N) :
  is_hybrid_letter x = true ->
  PyStr.same_letter (PyStr.undotted c) x = true ->
  PyStr.upper_codepoint c = [x].
Proof.
  intros Hx Hs.
  assert (Hx' : (x = 72 \/ x = 89 \/ x = 66 \/ x = 82 \/ x = 73 \/ x = 68)%N).
  { unfold is_hybrid_letter in Hx. simpl in Hx.
    rewrite !orb_true_iff, !N.eqb_eq in Hx. intuition discriminate. }
  assert (Hc : (PyStr.undotted c = x \/ PyStr.undotted c = x + 32)%N).
  { unfold PyStr.same_letter, PyStr.is_lower in Hs.
    rewrite !orb_true_iff, !andb_true_iff, !N.eqb_eq, !N.leb_le in Hs. lia. }
  assert (Hc' : (c = x \/ c = x + 32 \/ (c = 305 /\ x = 73))%N).
  { unfold PyStr.undotted in Hc. destruct (N.eqb_spec c 305); lia. }
  destruct Hx' as [->|[->|[->|[->|[->| ->]]]]];
    destruct Hc' as [->|[->|[-> Hi]]]; try discriminate Hi; vm_compute; reflexivity.
Qed.

(** Upper-casing and comparing with a word made of letters of HYBRID is
    comparing letter by letter up to case, the dotless i read as i. *)
Lemma upper_eq_ignore_case (s t : PyStr.codepoints) :
  forallb is_hybrid_letter t = true ->
  PyStr.eqb (PyStr.upper s) t = PyStr.eq_ignore_case (map PyStr.undotted s) t.
Proof.
  revert t. induction s as [|c s IH]; intros [|x t] Ht; simpl; try reflexivity.
  - pose proof (upper_codepoint_not_nil c) as Hn.
    destruct (PyStr.upper_codepoint c); [contradiction | reflexivity].
  - simpl in Ht. apply andb_true_iff in Ht as [Hx Ht].
    destruct (PyStr.same_letter (PyStr.undotted c) x) eqn:E; simpl.
    + rewrite (upper_codepoint_of_letter c x Hx E). simpl.
      now rewrite N.eqb_refl, (IH t Ht).
    + destruct (PyStr.eqb (PyStr.upper_codepoint c ++ PyStr.upper s)%list (x :: t)) eqn:F;
        [exfalso | reflexivity].
      apply codepoints_eqb_eq in F.
      assert (Hall : forallb is_hybrid_letter
                       (PyStr.upper_codepoint c ++ PyStr.upper s)%list = true)
        by (rewrite F; simpl; now rewrite Hx, Ht).
      rewrite forallb_app in Hall. apply andb_true_iff in Hall as [Hall _].
      destruct (upper_codepoint_hybrid_letters c Hall) as (y & Hy & Hsame).
      rewrite Hy in F. simpl in F. injection F as -> _. congruence.
Qed.

Lemma drop_length (k : nat) (s : string) :
  PyStr.len (PyStr.drop k s) = PyStr.len s - k.
Proof.
  revert s. induction k as [|k IH]; intros s; simpl.
  - unfold PyStr.len. lia.
  - destruct s as [|c s]; simpl; [reflexivity|]. apply IH.
Qed.

Lemma drop_is_suffix (k : nat) (s : string) :
  k <= PyStr.len s ->
  exists pre, s = pre ++ PyStr.drop k s /\ PyStr.len pre = k.
Proof.
  revert s. induction k as [|k IH]; intros s Hk.
  - exists "". split; reflexivity.
  - destruct s as [|c s]; simpl in Hk; [lia|].
    destruct (IH s) as [pre [E L]]; [unfold PyStr.len in *; simpl in *; lia|].
    exists (String c pre). simpl. split; [now rewrite <- E | unfold PyStr.len in *; simpl; lia].
Qed.

Lemma slice_last_is_suffix (n : nat) (s : string) :
  n <= PyStr.len s ->
  exists pre, s = pre ++ PyStr.slice_last n s /\ PyStr.len (PyStr.slice_last n s) = n.
Proof.
  intros Hn. unfold PyStr.slice_last.
  destruct (drop_is_suffix (PyStr.len s - n) s) as [pre [E _]]; [lia|].
  exists pre. split; [exact E|]. rewrite drop_length. lia.
Qed.


(** ** The program *)

Ltac py_unfold :=
  unfold execute, query_text_and_vector, _validate_tool_inputs, enrich_resources,
    validate_and_build_tool, get_tool_description, get_tool_name, try_except,
    private_attr, client_used, self_of, trace_of, outcome_of in *;
  unfold bind, ret, raise, lift, emit, get_self, modify in *.

(** The innermost scrutinee of a nest of case analyses. *)
Ltac innermost x :=
  lazymatch x with
  | context [match ?y with _ => _ end] => innermost y
  | _ => constr:(x)
  end.

Ltac py_case :=
  match goal with
  | |- context [match ?x with _ => _ end] =>
      let y := innermost x in destruct y eqn:?
  end.

Ltac py_cases := simpl; repeat (py_case; simpl).

Section Proofs.

Context {VectorSearchIndex SearchResponse Resource : Type}.
Variable W : World VectorSearchIndex SearchResponse Resource.

Local Abbreviation Tool := (VectorSearchRetrieverTool VectorSearchIndex Resource).

Lemma is_hybrid_flag (query_type : option PyStr.codepoints) :
  is_hybrid query_type = flag_is_hybrid query_type.
Proof.
  destruct query_type as [s|]; simpl; [|reflexivity].
  rewrite upper_eq_ignore_case by reflexivity.
  destruct s; reflexivity.
Qed.

Lemma documents_of_map (docs_with_score : list (Document * float)) :
  documents_of docs_with_score = map fst docs_with_score.
Proof.
  induction docs_with_score as [|[doc score] rest IH]; simpl; [reflexivity|].
  now rewrite IH.
Qed.

(** Lines 164-188 read the object and never assign to it. *)
Lemma query_text_and_vector_frame (self : Tool) (tr : list (event VectorSearchIndex))
    (query : string) (openai_client : option OpenAI) :
  self_of (query_text_and_vector W query openai_client (self, tr)) = self.
Proof. py_unfold. py_cases; reflexivity. Qed.

(** C9. [execute] leaves every field of the object as it found it, whatever
    the object, the query, the client and the collaborators' answers, and
    whether it returns documents or raises: the object after the call is
    the object before it. *)
Theorem C9_execute_leaves_object_unchanged
    (self : Tool) (tr : list (event VectorSearchIndex))
    (query : string) (openai_client : option OpenAI) :
  self_of (execute W query openai_client (self, tr)) = self.
Proof. py_unfold. py_cases; reflexivity. Qed.

(** C1. On an index with Databricks-managed embeddings, [execute q] makes
    exactly one external call, the similarity search on the object's index,
    with [query_text = q] unchanged and [query_vector = None]; in
    particular no embedding is requested. *)
Theorem C1_managed_query_passes_through
    (self : Tool) (tr : list (event VectorSearchIndex))
    (q : string) (openai_client : option OpenAI)
    (details : IndexDetails) (index : VectorSearchIndex) :
  _index_details self = Some details ->
  is_databricks_managed_embeddings details = true ->
  _index self = Some index ->
  query_text_and_vector W q openai_client (self, tr) = (Ok (Some q, None), (self, tr))
  /\ trace_of (execute W q openai_client (self, tr)) =
       (tr ++ [SimilaritySearch index
                 {| arg_columns := columns self;
                    arg_query_text := Some q;
                    arg_query_vector := None;
                    arg_filters := filters self;
                    arg_num_results := num_results self;
                    arg_query_type := query_type self |}])%list
  /\ (forall input model,
        In (EmbeddingsCreate input model)
           (trace_of (execute W q openai_client (self, tr))) ->
        In (EmbeddingsCreate input model) tr).
Proof.
  intros Hd Hm Hi.
  assert (Hq : query_text_and_vector W q openai_client (self, tr)
               = (Ok (Some q, None), (self, tr))).
  { py_unfold. simpl. rewrite Hd. simpl. rewrite Hm. reflexivity. }
  assert (Ht : trace_of (execute W q openai_client (self, tr)) =
       (tr ++ [SimilaritySearch index (search_args self (Some q) None)])%list).
  { unfold execute, bind at 1. rewrite Hq. py_unfold. simpl. rewrite Hi, Hd. simpl.
    py_cases; reflexivity. }
  split; [exact Hq|]. split; [exact Ht|].
  intros input model Hin. rewrite Ht in Hin.
  apply in_app_or in Hin as [Hin|[Hin|[]]]; [exact Hin | discriminate Hin].
Qed.

Lemma dimension_check (details : IndexDetails) (v : list float) :
  dimension_accepted details v <->
  py_truthy (declared_dimension details)
  && int_ne (Z.of_nat (length v)) (declared_dimension details) = false.
Proof.
  unfold dimension_accepted. split.
  - intros [H|H]; rewrite H; simpl; [reflexivity|].
    rewrite Z.eqb_refl. apply andb_false_r.
  - intros H. apply andb_false_iff in H as [H|H]; [now left|right].
    destruct (declared_dimension details) as [|z|s]; simpl in H; try discriminate.
    apply negb_false_iff, Z.eqb_eq in H. now subst.
Qed.

(** Lines 164-188 on a self-managed index whose client holds a credential:
    the embedding is requested, and the outcome is decided by the response
    and the dimension check. *)
Lemma query_text_and_vector_self_managed
    (self : Tool) (tr : list (event VectorSearchIndex))
    (q : string) (openai_client : option OpenAI)
    (details : IndexDetails) (oai : OpenAI) :
  _index_details self = Some details ->
  is_databricks_managed_embeddings details = false ->
  client_used W openai_client = Ok oai ->
  PyStr.truthy_opt (api_key oai) = true ->
  query_text_and_vector W q openai_client (self, tr) =
    let tr' := (tr ++ [EmbeddingsCreate q (embedding_model_name self)])%list in
    match embeddings_create oai q (embedding_model_name self) with
    | Raise e => (Raise e, (self, tr'))
    | Ok [] => (Raise (IndexError "list index out of range"), (self, tr'))
    | Ok (v :: _) =>
        if py_truthy (declared_dimension details)
           && int_ne (Z.of_nat (length v)) (declared_dimension details)
        then (Raise (ValueError (dimension_mismatch_message
                                   (declared_dimension details) (length v))),
              (self, tr'))
        else (Ok (if is_hybrid (query_type self) then Some q else None, Some v),
              (self, tr'))
    end.
Proof.
  intros Hd Hm Hc Hk. py_unfold. simpl. rewrite Hd. simpl. rewrite Hm.
  destruct openai_client as [c|]; simpl in Hc |- *;
    [injection Hc as -> | rewrite Hc]; rewrite Hk; simpl.
  all: destruct (embeddings_create oai q (embedding_model_name self)) as [[|v others]|e];
    simpl; try reflexivity.
  all: unfold declared_dimension;
    destruct (py_truthy _ && int_ne _ _); reflexivity.
Qed.

(** C2 (amended). On a self-managed index, once [execute q] has a client
    with a credential, it requests an embedding of [q] from the configured
    model; and when the client returns a vector that passes the dimension
    check, the run makes exactly two external calls: that request, then
    the similarity search with the vector and with [query_text = q] if the
    query-type flag upper-cases to HYBRID, that is, if it spells HYBRID in
    any letter case, a dotless i (U+0131) being accepted for the i;
    [query_text = None] otherwise (an unset flag included). *)
Theorem C2_self_managed_query_shape
    (self : Tool) (tr : list (event VectorSearchIndex))
    (q : string) (openai_client : option OpenAI)
    (details : IndexDetails) (index : VectorSearchIndex) (oai : OpenAI) :
  _index_details self = Some details ->
  is_databricks_managed_embeddings details = false ->
  _index self = Some index ->
  client_used W openai_client = Ok oai ->
  PyStr.truthy_opt (api_key oai) = true ->
  (exists later,
     trace_of (execute W q openai_client (self, tr)) =
       (tr ++ EmbeddingsCreate q (embedding_model_name self) :: later)%list)
  /\ (forall v others,
        embeddings_create oai q (embedding_model_name self) = Ok (v :: others) ->
        dimension_accepted details v ->
        trace_of (execute W q openai_client (self, tr)) =
          (tr ++ [EmbeddingsCreate q (embedding_model_name self);
                  SimilaritySearch index
                    {| arg_columns := columns self;
                       arg_query_text :=
                         if flag_is_hybrid (query_type self) then Some q else None;
                       arg_query_vector := Some v;
                       arg_filters := filters self;
                       arg_num_results := num_results self;
                       arg_query_type := query_type self |}])%list).
Proof.
  intros Hd Hm Hi Hc Hk.
  pose proof (query_text_and_vector_self_managed self tr q openai_client details oai
                Hd Hm Hc Hk) as Hq.
  split.
  - unfold execute, bind at 1. rewrite Hq. cbv zeta.
    destruct (embeddings_create oai q (embedding_model_name self)) as [[|v others]|e];
      [eexists; reflexivity | | eexists; reflexivity].
    destruct (py_truthy _ && int_ne _ _); [eexists; reflexivity|].
    py_unfold. simpl. rewrite Hi, Hd. simpl.
    py_cases; rewrite <- app_assoc; eexists; reflexivity.
  - intros v others Hv Hdim.
    apply dimension_check in Hdim.
    unfold execute, bind at 1. rewrite Hq. cbv zeta. rewrite Hv, Hdim.
    rewrite is_hybrid_flag.
    py_unfold. simpl. rewrite Hi, Hd. simpl.
    py_cases; rewrite <- app_assoc; reflexivity.
Qed.

(** C3 (amended). On a self-managed index that declares a non-zero
    expected embedding dimension [d], when the embedding client returns a
    vector of another length [n], [execute] raises the configuration error
    "Expected embedding dimension d but got n", and the only external call
    of the run is the embedding request: no search is submitted. *)
Theorem C3_dimension_mismatch_raises
    (self : Tool) (tr : list (event VectorSearchIndex))
    (q : string) (openai_client : option OpenAI)
    (details : IndexDetails) (oai : OpenAI)
    (v : list float) (others : list (list float)) (d : Z) :
  _index_details self = Some details ->
  is_databricks_managed_embeddings details = false ->
  client_used W openai_client = Ok oai ->
  PyStr.truthy_opt (api_key oai) = true ->
  embeddings_create oai q (embedding_model_name self) = Ok (v :: others) ->
  declared_dimension details = PyInt d ->
  d <> 0%Z ->
  Z.of_nat (length v) <> d ->
  execute W q openai_client (self, tr) =
    (Raise (ValueError ("Expected embedding dimension " ++ PyStr.of_Z d
                        ++ " but got " ++ PyStr.of_nat (length v))),
     (self, (tr ++ [EmbeddingsCreate q (embedding_model_name self)])%list))
  /\ (forall index args,
        In (SimilaritySearch index args)
           (trace_of (execute W q openai_client (self, tr))) ->
        In (SimilaritySearch index args) tr).
Proof.
  intros Hd Hm Hc Hk Hv Hdim Hnz Hne.
  assert (E : execute W q openai_client (self, tr) =
    (Raise (ValueError ("Expected embedding dimension " ++ PyStr.of_Z d
                        ++ " but got " ++ PyStr.of_nat (length v))),
     (self, (tr ++ [EmbeddingsCreate q (embedding_model_name self)])%list))).
  { unfold execute, bind at 1.
    rewrite (query_text_and_vector_self_managed self tr q openai_client details oai
               Hd Hm Hc Hk).
    cbv zeta. rewrite Hv, Hdim. simpl.
    apply Z.eqb_neq in Hnz, Hne. rewrite Hnz, Hne. reflexivity. }
  split; [exact E|].
  intros index args Hin. rewrite E in Hin. unfold trace_of in Hin. simpl in Hin.
  apply in_app_or in Hin as [Hin|[Hin|[]]]; [exact Hin | discriminate Hin].
Qed.

(** C4. When the index's response parses into a list of (document, score)
    pairs, [execute] returns the documents of those pairs, in the order of
    the pairs, without the scores. *)
Theorem C4_documents_in_order
    (self : Tool) (tr : list (event VectorSearchIndex))
    (q : string) (openai_client : option OpenAI)
    (tv : option string * option (list float))
    (st1 : state VectorSearchIndex Resource)
    (index : VectorSearchIndex) (details : IndexDetails)
    (resp : SearchResponse) (pairs : list (Document * float)) :
  query_text_and_vector W q openai_client (self, tr) = (Ok tv, st1) ->
  _index self = Some index ->
  _index_details self = Some details ->
  similarity_search W index (search_args self (fst tv) (snd tv)) = Ok resp ->
  parse_vector_search_response W resp details (text_column self) = Ok pairs ->
  outcome_of (execute W q openai_client (self, tr)) = Ok (map fst pairs).
Proof.
  intros Hq Hi Hd Hs Hp.
  pose proof (query_text_and_vector_frame self tr q openai_client) as Hf.
  rewrite Hq in Hf. destruct st1 as [self1 tr1]. unfold self_of in Hf. simpl in Hf.
  subst self1.
  unfold execute, bind at 1. rewrite Hq.
  py_unfold. simpl. rewrite Hi. simpl. rewrite Hs, Hd. simpl. rewrite Hp.
  simpl. now rewrite documents_of_map.
Qed.

End Proofs.

(** ** Validation *)

Section ValidationProofs.

Context {VectorSearchIndex SearchResponse Resource : Type}.
Variable W : World VectorSearchIndex SearchResponse Resource.

Local Abbreviation Tool := (VectorSearchRetrieverTool VectorSearchIndex Resource).
Local Abbreviation Trace := (list (event VectorSearchIndex)).

(** The hook is lines 95-132, then the [try] block, then [return self]. *)
Lemma _validate_tool_inputs_steps (st0 : state VectorSearchIndex Resource) :
  _validate_tool_inputs W st0 =
    match validate_and_build_tool W st0 with
    | (Ok _, st) =>
        match enrich_resources W st with
        | (Ok _, st') => (Ok (fst st'), st')
        | (Raise e, st') => (Raise e, st')
        end
    | (Raise e, st) => (Raise e, st)
    end.
Proof.
  unfold _validate_tool_inputs, bind, get_self.
  destruct (validate_and_build_tool W st0) as [[u|e] st]; [|reflexivity].
  destruct (enrich_resources W st) as [[u'|e] st']; reflexivity.
Qed.

(** The [try] block, by the outcome of each of its steps. *)
Lemma enrich_resources_steps (self : Tool) (tr : Trace) :
  enrich_resources W (self, tr) =
    match import_WorkspaceClient W, import_ResourceDoesNotExist W with
    | Ok _, Ok _ =>
        match WorkspaceClient W with
        | Raise e =>
            if is_ResourceDoesNotExist e
            then (Ok tt, (set_resources
                            (Some (_get_resources W (index_name self) None)) self, tr))
            else (Raise e, (self, tr))
        | Ok _ =>
            let tr' := (tr ++ [ServingEndpointsGet (embedding_model_name self)])%list in
            match serving_endpoints_get W (embedding_model_name self) with
            | Ok _ =>
                (Ok tt, (set_resources
                           (Some (_get_resources W (index_name self)
                                    (embedding_model_name self))) self, tr'))
            | Raise e =>
                if is_ResourceDoesNotExist e
                then (Ok tt, (set_resources
                                (Some (_get_resources W (index_name self) None)) self, tr'))
                else (Raise e, (self, tr'))
            end
        end
    | _, _ => (Raise (UnboundLocalError "ResourceDoesNotExist"), (self, tr))
    end.
Proof.
  py_unfold.
  destruct (import_WorkspaceClient W), (import_ResourceDoesNotExist W); try reflexivity.
  destruct (WorkspaceClient W) as [u|e]; simpl.
  - destruct (serving_endpoints_get W (embedding_model_name self)) as [u'|e]; simpl;
      [reflexivity|]. destruct (is_ResourceDoesNotExist e); reflexivity.
  - destruct (is_ResourceDoesNotExist e); reflexivity.
Qed.

(** What lines 95-132 leave behind when they succeed. *)
Lemma validate_and_build_tool_success (self : Tool) (tr : Trace)
    (self' : Tool) (tr' : Trace) :
  validate_and_build_tool W (self, tr) = (Ok tt, (self', tr')) ->
  let base := PyStr.or_else (tool_name self)
                (PyStr.replace "."%char "__" (index_name self)) in
  index_name self' = index_name self
  /\ embedding_model_name self' = embedding_model_name self
  /\ (exists description,
        tool self' = Some (pydantic_function_tool VectorSearchRetrieverToolInput
                             (if (64 <? PyStr.len base)%nat
                              then PyStr.slice_last 64 base else base)
                             description))
  /\ ((64 < PyStr.len base)%nat -> In (LogWarning (too_long_message base)) tr').
Proof.
  intros H base. subst base. revert H. py_unfold. py_cases; intros H; try discriminate H.
  all: injection H as <- <-; simpl.
  all: repeat split; try (eexists; reflexivity).
  all: intros Hlen.
  all: try (rewrite !in_app_iff; simpl; now auto).
  all: match goal with
       | E : (64 <? _)%nat = false |- _ => apply Nat.ltb_ge in E; lia
       end.
Qed.

(** The [try] block touches the resource list and the trace only. *)
Lemma enrich_resources_success (self : Tool) (tr : Trace) (self' : Tool) (tr' : Trace) :
  enrich_resources W (self, tr) = (Ok tt, (self', tr')) ->
  (exists r, self' = set_resources r self) /\ exists later, tr' = (tr ++ later)%list.
Proof.
  rewrite enrich_resources_steps. cbv zeta. py_cases; intros H; try discriminate H.
  all: injection H as <- <-; split; [eexists; reflexivity|].
  all: try (eexists; reflexivity).
  all: exists []; now rewrite app_nil_r.
Qed.

Lemma name_before_truncation_or_else (tool_name : option string) (index_name : string) :
  PyStr.or_else tool_name (PyStr.replace "."%char "__" index_name)
  = name_before_truncation tool_name index_name.
Proof.
  unfold name_before_truncation, dots_to_double_underscores.
  rewrite replace_is_join. destruct tool_name as [[|c s]|]; reflexivity.
Qed.

(** The descriptor stored by a successful validation, and its warning. *)
Lemma _validate_tool_inputs_tool (self : Tool) (tr : Trace)
    (obj : Tool) (st : state VectorSearchIndex Resource) :
  _validate_tool_inputs W (self, tr) = (Ok obj, st) ->
  let name := name_before_truncation (tool_name self) (index_name self) in
  (exists description,
     tool obj = Some (pydantic_function_tool VectorSearchRetrieverToolInput
                        (if (64 <? PyStr.len name)%nat
                         then PyStr.slice_last 64 name else name)
                        description))
  /\ ((64 < PyStr.len name)%nat -> In (LogWarning (too_long_message name)) (snd st)).
Proof.
  intros H name. subst name. rewrite <- name_before_truncation_or_else.
  rewrite _validate_tool_inputs_steps in H.
  destruct (validate_and_build_tool W (self, tr)) as [[[]|e] [self1 tr1]] eqn:E1;
    [|discriminate H].
  destruct (enrich_resources W (self1, tr1)) as [[[]|e] [self2 tr2]] eqn:E2;
    [|discriminate H].
  injection H as <- <-. simpl.
  destruct (validate_and_build_tool_success _ _ _ _ E1) as (_ & _ & Ht & Hw).
  destruct (enrich_resources_success _ _ _ _ E2) as ((r & ->) & later & ->).
  simpl. split; [exact Ht|].
  intros Hlen. apply in_or_app. left. now apply Hw.
Qed.

(** A validated instance holds the index handle and the index details that
    the collaborators returned for its identifier, and, on a self-managed
    index, an embedding model name. *)
Lemma validate_and_build_tool_index (self : Tool) (tr : Trace)
    (self' : Tool) (tr' : Trace) :
  validate_and_build_tool W (self, tr) = (Ok tt, (self', tr')) ->
  exists index details,
    _index self' = Some index
    /\ _index_details self' = Some details
    /\ get_index W (index_name self) = Ok index
    /\ new_IndexDetails W index = Ok details
    /\ (is_databricks_managed_embeddings details = false ->
        PyStr.truthy_opt (embedding_model_name self') = true).
Proof.
  py_unfold. py_cases; intros H; try discriminate H.
  all: injection H as <- <-; simpl.
  all: do 2 eexists; repeat split; try eassumption.
  all: intros Hm;
    match goal with
    | E : negb _ && negb _ = false |- _ =>
        simpl in E; rewrite Hm in E; simpl in E; now apply negb_false_iff in E
    end.
Qed.

Lemma validated_instance (self : Tool) (tr : Trace)
    (obj : Tool) (st : state VectorSearchIndex Resource) :
  _validate_tool_inputs W (self, tr) = (Ok obj, st) ->
  exists index details,
    _index obj = Some index
    /\ _index_details obj = Some details
    /\ get_index W (index_name self) = Ok index
    /\ new_IndexDetails W index = Ok details
    /\ (is_databricks_managed_embeddings details = false ->
        PyStr.truthy_opt (embedding_model_name obj) = true).
Proof.
  intros H. rewrite _validate_tool_inputs_steps in H.
  destruct (validate_and_build_tool W (self, tr)) as [[[]|e] [self1 tr1]] eqn:E1;
    [|discriminate H].
  destruct (enrich_resources W (self1, tr1)) as [[[]|e] [self2 tr2]] eqn:E2;
    [|discriminate H].
  injection H as <- <-.
  destruct (enrich_resources_success _ _ _ _ E2) as ((r & ->) & _).
  exact (validate_and_build_tool_index _ _ _ _ E1).
Qed.

(** C5 (amended). The tool name is derived from the override when one is
    given and not empty, and otherwise from the index identifier with each
    dot replaced by a double underscore.  A name of at most 64 characters
    is used as it is.  A longer one is cut to its last 64 characters, and a
    warning is logged; the descriptor stored by a successful validation
    carries the name so obtained. *)
Theorem C5_tool_name (self : Tool) (tr : Trace) :
  let name := name_before_truncation (tool_name self) (index_name self) in
  ((PyStr.len name <= 64)%nat ->
     get_tool_name (self, tr) = (Ok name, (self, tr))
     /\ forall obj st,
          _validate_tool_inputs W (self, tr) = (Ok obj, st) ->
          exists description,
            tool obj = Some (pydantic_function_tool VectorSearchRetrieverToolInput
                               name description))
  /\ ((64 < PyStr.len name)%nat ->
        exists front stored,
          name = front ++ stored
          /\ PyStr.len stored = 64
          /\ get_tool_name (self, tr) =
               (Ok stored, (self, (tr ++ [LogWarning (too_long_message name)])%list))
          /\ forall obj st,
               _validate_tool_inputs W (self, tr) = (Ok obj, st) ->
               (exists description,
                  tool obj = Some (pydantic_function_tool VectorSearchRetrieverToolInput
                                     stored description))
               /\ In (LogWarning (too_long_message name)) (snd st)).
Proof.
  intros name. split; intros Hlen.
  - assert (E : (64 <? PyStr.len name)%nat = false) by (apply Nat.ltb_ge; lia).
    split.
    + unfold get_tool_name, bind, get_self, ret. simpl.
      rewrite name_before_truncation_or_else. fold name. now rewrite E.
    + intros obj st H.
      destruct (_validate_tool_inputs_tool self tr obj st H) as [Ht _].
      fold name in Ht. now rewrite E in Ht.
  - assert (E : (64 <? PyStr.len name)%nat = true) by (apply Nat.ltb_lt; lia).
    destruct (slice_last_is_suffix 64 name) as [front [Hfront Hstored]]; [lia|].
    exists front, (PyStr.slice_last 64 name). repeat split; try assumption.
    + unfold get_tool_name, bind, get_self, ret, emit. simpl.
      rewrite name_before_truncation_or_else. fold name. now rewrite E.
    + destruct (_validate_tool_inputs_tool self tr obj st H) as [Ht _].
      fold name in Ht. now rewrite E in Ht.
    + destruct (_validate_tool_inputs_tool self tr obj st H) as [_ Hw].
      now apply Hw.
Qed.

(** C6. When the index identifier does not split on dots into exactly
    three segments, validation raises the configuration error about the
    identifier's format, with the object untouched and nothing added to the
    trace: no index lookup, nor any other external call, has been made. *)
Theorem C6_identifier_shape (self : Tool) (tr : Trace) :
  length (PyStr.split "."%char (index_name self)) <> 3 ->
  _validate_tool_inputs W (self, tr) =
    (Raise (ValueError (index_format_message (index_name self))), (self, tr)).
Proof.
  intros Hsplit. apply Nat.eqb_neq in Hsplit.
  rewrite _validate_tool_inputs_steps.
  unfold validate_and_build_tool, bind, get_self, raise. simpl.
  now rewrite Hsplit.
Qed.

(** C7. On an index whose metadata indicates self-managed embeddings, a
    configuration without an embedding model name ([None], or the empty
    string) is never validated: the hook raises.  The error is the
    configuration error about the identifier's format, the one a column
    validator raised, or the configuration error "The embedding model name
    is required ..."; it is the last whenever the run reaches that check. *)
Theorem C7_embedding_model_required (self : Tool) (tr : Trace)
    (index : VectorSearchIndex) (details : IndexDetails) :
  PyStr.truthy_opt (embedding_model_name self) = false ->
  VectorSearchClient W = Ok tt ->
  get_index W (index_name self) = Ok index ->
  new_IndexDetails W index = Ok details ->
  is_databricks_managed_embeddings details = false ->
  exists e,
    outcome_of (_validate_tool_inputs W (self, tr)) = Raise e
    /\ (is_configuration_error e = true
        \/ validate_and_get_text_column W (text_column self) details = Raise e
        \/ exists tc,
             validate_and_get_return_columns W
               (match columns self with Some cs => cs | None => [] end) tc details
             = Raise e)
    /\ (length (PyStr.split "."%char (index_name self)) = 3 ->
        forall tc cols,
          validate_and_get_text_column W (text_column self) details = Ok tc ->
          validate_and_get_return_columns W
            (match columns self with Some cs => cs | None => [] end) tc details
          = Ok cols ->
          e = ValueError embedding_model_required_message).
Proof.
  intros Hname Hclient Hindex Hdetails Hmanaged.
  rewrite _validate_tool_inputs_steps.
  unfold validate_and_build_tool, outcome_of.
  unfold bind, get_self, raise, lift, emit, modify. simpl.
  destruct (length (PyStr.split "." (index_name self)) =? 3)%nat eqn:Hsplit; simpl.
  2:{ eexists. split; [reflexivity|]. split; [now left|].
      intros H3. apply Nat.eqb_neq in Hsplit. contradiction. }
  rewrite Hclient. simpl. rewrite Hindex. simpl. rewrite Hdetails. simpl.
  destruct (validate_and_get_text_column W (text_column self) details)
    as [tc|e] eqn:Htc; simpl.
  2:{ exists e. split; [reflexivity|]. split; [now right; left|].
      intros _ tc cols Hok. discriminate Hok. }
  destruct (validate_and_get_return_columns W
              (match columns self with Some cs => cs | None => [] end) tc details)
    as [cols|e] eqn:Hcols; simpl.
  2:{ exists e. split; [reflexivity|]. split; [right; right; now exists tc|].
      intros _ tc' cols' Hok Hok'. injection Hok as <-. congruence. }
  rewrite Hmanaged, Hname. simpl.
  eexists. split; [reflexivity|]. split; [now left|]. reflexivity.
Qed.

(** C8. The serving-endpoint lookup is best-effort.  Once lines 95-132 have
    succeeded and the workspace client exists: if the lookup reports
    not-found, validation succeeds and the object's resource list is the
    one built without the embedding model; if the lookup succeeds,
    validation succeeds and the object's resource list is the one built
    with the embedding model; any other failure of the lookup is the
    outcome of validation. *)
Theorem C8_endpoint_lookup_best_effort (self0 : Tool) (tr0 : Trace)
    (self : Tool) (tr : Trace) :
  validate_and_build_tool W (self0, tr0) = (Ok tt, (self, tr)) ->
  import_WorkspaceClient W = Ok tt ->
  import_ResourceDoesNotExist W = Ok tt ->
  WorkspaceClient W = Ok tt ->
  let model := embedding_model_name self0 in
  let tr' := (tr ++ [ServingEndpointsGet model])%list in
  let without := set_resources (Some (_get_resources W (index_name self0) None)) self in
  let with_model := set_resources (Some (_get_resources W (index_name self0) model)) self in
  (forall msg,
     serving_endpoints_get W model = Raise (ResourceDoesNotExist msg) ->
     _validate_tool_inputs W (self0, tr0) = (Ok without, (without, tr'))
     /\ resources without = Some (_get_resources W (index_name self0) None))
  /\ (serving_endpoints_get W model = Ok tt ->
      _validate_tool_inputs W (self0, tr0) = (Ok with_model, (with_model, tr'))
      /\ resources with_model = Some (_get_resources W (index_name self0) model))
  /\ (forall e,
        serving_endpoints_get W model = Raise e ->
        is_ResourceDoesNotExist e = false ->
        _validate_tool_inputs W (self0, tr0) = (Raise e, (self, tr'))).
Proof.
  intros Hpre Hi1 Hi2 Hc model tr' without with_model.
  destruct (validate_and_build_tool_success _ _ _ _ Hpre) as (Hidx & Hmodel & _).
  subst model tr' without with_model. rewrite <- Hidx, <- Hmodel.
  rewrite _validate_tool_inputs_steps, Hpre, enrich_resources_steps, Hi1, Hi2, Hc.
  cbv zeta. repeat split.
  - now rewrite H.
  - now rewrite H.
  - intros e H He. now rewrite H, He.
Qed.

(** C10. The lookup is not conditioned on the kind of index or on the
    model name: once lines 95-132 have succeeded and the SDK is imported
    and its client built, the serving endpoint is looked up under the
    configured embedding model name, [None] included.  Only not-found is
    caught: a failing import aborts validation (the handler's class name is
    then unbound), and any other exception of the client's construction or
    of the lookup is the outcome of validation; a not-found raised by the
    client's construction or by the lookup is caught, and validation then
    succeeds with the resource list built without the embedding model. *)
Theorem C10_lookup_unconditional (self0 : Tool) (tr0 : Trace)
    (self : Tool) (tr : Trace) :
  validate_and_build_tool W (self0, tr0) = (Ok tt, (self, tr)) ->
  let model := embedding_model_name self0 in
  let tr' := (tr ++ [ServingEndpointsGet model])%list in
  (import_WorkspaceClient W = Ok tt ->
   import_ResourceDoesNotExist W = Ok tt ->
   WorkspaceClient W = Ok tt ->
   trace_of (_validate_tool_inputs W (self0, tr0)) = tr')
  /\ (forall e,
        import_WorkspaceClient W = Raise e \/ import_ResourceDoesNotExist W = Raise e ->
        _validate_tool_inputs W (self0, tr0) =
          (Raise (UnboundLocalError "ResourceDoesNotExist"), (self, tr)))
  /\ (forall e,
        import_WorkspaceClient W = Ok tt ->
        import_ResourceDoesNotExist W = Ok tt ->
        is_ResourceDoesNotExist e = false ->
        WorkspaceClient W = Raise e ->
        _validate_tool_inputs W (self0, tr0) = (Raise e, (self, tr)))
  /\ (forall e,
        import_WorkspaceClient W = Ok tt ->
        import_ResourceDoesNotExist W = Ok tt ->
        WorkspaceClient W = Ok tt ->
        is_ResourceDoesNotExist e = false ->
        serving_endpoints_get W model = Raise e ->
        _validate_tool_inputs W (self0, tr0) = (Raise e, (self, tr')))
  /\ (forall e,
        import_WorkspaceClient W = Ok tt ->
        import_ResourceDoesNotExist W = Ok tt ->
        is_ResourceDoesNotExist e = true ->
        WorkspaceClient W = Raise e \/
        (WorkspaceClient W = Ok tt /\ serving_endpoints_get W model = Raise e) ->
        exists obj tr'',
          _validate_tool_inputs W (self0, tr0) = (Ok obj, (obj, tr''))
          /\ resources obj = Some (_get_resources W (index_name self0) None)).
Proof.
  intros Hpre model tr'.
  destruct (validate_and_build_tool_success _ _ _ _ Hpre) as (Hidx & Hmodel & _).
  subst model tr'. rewrite <- Hmodel, <- Hidx.
  rewrite _validate_tool_inputs_steps, Hpre, enrich_resources_steps.
  repeat split.
  - intros Hi1 Hi2 Hc. rewrite Hi1, Hi2, Hc. cbv zeta. unfold trace_of.
    destruct (serving_endpoints_get W (embedding_model_name self)) as [u|e];
      [reflexivity|]. destruct (is_ResourceDoesNotExist e); reflexivity.
  - intros e [H|H]; rewrite H; [reflexivity|].
    destruct (import_WorkspaceClient W); reflexivity.
  - intros e Hi1 Hi2 He Hc. now rewrite Hi1, Hi2, Hc, He.
  - intros e Hi1 Hi2 Hc He H. rewrite Hi1, Hi2, Hc. cbv zeta. now rewrite H, He.
  - intros e Hi1 Hi2 He [Hc|[Hc H]]; rewrite Hi1, Hi2, Hc; cbv zeta;
      rewrite ?H, He; do 2 eexists; split; reflexivity.
Qed.

End ValidationProofs.

(** * Instances *)

(** C1 at a managed index: [execute("foo")] issues the search with
    [query_text="foo"], [query_vector=None] and calls nothing else. *)
Lemma C1_witness :
  trace_of (execute (workspace true PyNone endpoint_found (Ok tt) (Ok tt)) "foo" None
              (validated true PyNone None (Some "ANN"), []))
  = [SimilaritySearch "cat.sch.idx"
       {| arg_columns := Some ["id"; "text"];
          arg_query_text := Some "foo";
          arg_query_vector := None;
          arg_filters := None;
          arg_num_results := 5;
          arg_query_type := Some (PyStr.of_ascii "ANN") |}].
Proof.
  exact (proj1 (proj2 (C1_managed_query_passes_through
                         (workspace true PyNone endpoint_found (Ok tt) (Ok tt))
                         (validated true PyNone None (Some "ANN")) [] "foo" None
                         (details_with true PyNone) "cat.sch.idx"
                         eq_refl eq_refl eq_refl))).
Defined.

(** C2 at a self-managed index with [query_type="hybrid"]: text and vector
    are both sent. *)
Lemma C2_witness :
  trace_of (execute (workspace false (PyInt 3) endpoint_found (Ok tt) (Ok tt)) "foo"
              (Some (embedder 3))
              (validated false (PyInt 3) (Some "emb") (Some "hybrid"), []))
  = [EmbeddingsCreate "foo" (Some "emb");
     SimilaritySearch "cat.sch.idx"
       {| arg_columns := Some ["id"; "text"];
          arg_query_text := Some "foo";
          arg_query_vector := Some [0.25%float; 0.25%float; 0.25%float];
          arg_filters := None;
          arg_num_results := 5;
          arg_query_type := Some (PyStr.of_ascii "hybrid") |}].
Proof.
  exact (proj2 (C2_self_managed_query_shape
                  (workspace false (PyInt 3) endpoint_found (Ok tt) (Ok tt))
                  (validated false (PyInt 3) (Some "emb") (Some "hybrid")) [] "foo"
                  (Some (embedder 3)) (details_with false (PyInt 3)) "cat.sch.idx"
                  (embedder 3) eq_refl eq_refl eq_refl eq_refl eq_refl)
               (repeat 0.25%float 3) [] eq_refl (or_intror eq_refl)).
Defined.

(** C2 as stated fails at the flag spelled h, y, b, r, dotless i, d: it is
    not HYBRID up to letter case, yet it upper-cases to HYBRID and the
    text is sent with the vector. *)
Lemma C2_counterexample_dotless_i :
  flag_equals_hybrid_ignoring_case (Some hybrid_with_dotless_i) = false
  /\ PyStr.upper hybrid_with_dotless_i = PyStr.of_ascii "HYBRID"
  /\ trace_of (execute self_managed_workspace "foo" (Some (embedder 3))
                 (with_query_type (Some hybrid_with_dotless_i) self_managed_instance, []))
     = [EmbeddingsCreate "foo" (Some "emb");
        SimilaritySearch "cat.sch.idx"
          {| arg_columns := Some ["id"; "text"];
             arg_query_text := Some "foo";
             arg_query_vector := Some [0.25%float; 0.25%float; 0.25%float];
             arg_filters := None;
             arg_num_results := 5;
             arg_query_type := Some hybrid_with_dotless_i |}].
Proof.
  repeat split.
Qed.

(** C3 at a declared dimension of 768 and a vector of 512 entries. *)
Lemma C3_witness :
  execute (workspace false (PyInt 768) endpoint_found (Ok tt) (Ok tt)) "foo"
    (Some (embedder 512))
    (validated false (PyInt 768) (Some "emb") (Some "ANN"), [])
  = (Raise (ValueError "Expected embedding dimension 768 but got 512"),
     (validated false (PyInt 768) (Some "emb") (Some "ANN"),
      [EmbeddingsCreate "foo" (Some "emb")])).
Proof.
  refine (proj1 (C3_dimension_mismatch_raises
                   (workspace false (PyInt 768) endpoint_found (Ok tt) (Ok tt))
                   (validated false (PyInt 768) (Some "emb") (Some "ANN")) [] "foo"
                   (Some (embedder 512)) (details_with false (PyInt 768))
                   (embedder 512) (repeat 0.25%float 512) [] 768%Z
                   eq_refl eq_refl eq_refl eq_refl eq_refl eq_refl _ _)).
  - discriminate.
  - vm_compute. discriminate.
Defined.

(** C3 as stated fails at a declared dimension of zero: the vector has two
    entries, the check is skipped and the search is submitted. *)
Lemma C3_counterexample_zero_dimension :
  declared_dimension (details_with false (PyInt 0)) = PyInt 0
  /\ embeddings_create (embedder 2) "foo" (Some "emb") = Ok [[0.25%float; 0.25%float]]
  /\ Z.of_nat (length [0.25%float; 0.25%float]) <> 0%Z
  /\ execute (workspace false (PyInt 0) endpoint_found (Ok tt) (Ok tt)) "foo"
       (Some (embedder 2))
       (validated false (PyInt 0) (Some "emb") (Some "ANN"), [])
     = (Ok [doc_a; doc_b],
        (validated false (PyInt 0) (Some "emb") (Some "ANN"),
         [EmbeddingsCreate "foo" (Some "emb");
          SimilaritySearch "cat.sch.idx"
            {| arg_columns := Some ["id"; "text"];
               arg_query_text := None;
               arg_query_vector := Some [0.25%float; 0.25%float];
               arg_filters := None;
               arg_num_results := 5;
               arg_query_type := Some (PyStr.of_ascii "ANN") |}])).
Proof.
  repeat split. discriminate.
Qed.

(** C4 at the parsed pairs [({"id":1,"text":"a"}, 0.9), ({"id":2,"text":"b"}, 0.5)]. *)
Lemma C4_witness :
  outcome_of (execute (workspace true PyNone endpoint_found (Ok tt) (Ok tt)) "foo" None
                (validated true PyNone None (Some "ANN"), []))
  = Ok [[("id", PyInt 1); ("text", PyStr "a")]; [("id", PyInt 2); ("text", PyStr "b")]].
Proof.
  exact (C4_documents_in_order
           (workspace true PyNone endpoint_found (Ok tt) (Ok tt))
           (validated true PyNone None (Some "ANN")) [] "foo" None
           (Some "foo", None) (validated true PyNone None (Some "ANN"), [])
           "cat.sch.idx" (details_with true PyNone) scored_rows scored_rows
           eq_refl eq_refl eq_refl eq_refl eq_refl).
Defined.

(** C5 at an override of 81 characters: the stored name is its last 64. *)
Lemma C5_witness :
  exists front stored,
    long_name = front ++ stored
    /\ PyStr.len stored = 64
    /\ get_tool_name (config "cat.sch.idx" (Some long_name) None None, [])
       = (Ok stored,
          (config "cat.sch.idx" (Some long_name) None None,
           [@LogWarning string (too_long_message long_name)]))
    /\ forall obj st,
         _validate_tool_inputs (workspace true PyNone endpoint_found (Ok tt) (Ok tt))
           (config "cat.sch.idx" (Some long_name) None None, []) = (Ok obj, st) ->
         (exists description,
            tool obj = Some (pydantic_function_tool VectorSearchRetrieverToolInput
                               stored description))
         /\ In (LogWarning (too_long_message long_name)) (snd st).
Proof.
  refine (proj2 (C5_tool_name (workspace true PyNone endpoint_found (Ok tt) (Ok tt))
                   (config "cat.sch.idx" (Some long_name) None None) []) _).
  vm_compute. repeat constructor.
Defined.

(** C5 as stated fails at an empty override: the name is derived from the
    index identifier, not taken from the override. *)
Lemma C5_counterexample_empty_override :
  tool_name (config "a.b.c" (Some "") None None) = Some ""
  /\ name_as_claimed (Some "") "a.b.c" = ""
  /\ get_tool_name (config "a.b.c" (Some "") None None, @nil (event string))
     = (Ok "a__b__c", (config "a.b.c" (Some "") None None, []))
  /\ option_map function_name
       (tool (self_of (_validate_tool_inputs
                         (workspace true PyNone endpoint_found (Ok tt) (Ok tt))
                         (config "a.b.c" (Some "") None None, []))))
     = Some "a__b__c"
  /\ "a__b__c" <> name_as_claimed (Some "") "a.b.c".
Proof.
  repeat split. discriminate.
Qed.

(** C6 at an identifier of two segments. *)
Lemma C6_witness :
  _validate_tool_inputs (workspace true PyNone endpoint_found (Ok tt) (Ok tt))
    (config "schema.index" None None None, [])
  = (Raise (ValueError
       "Index name schema.index is not in the expected format 'catalog.schema.index'."),
     (config "schema.index" None None None, [])).
Proof.
  refine (C6_identifier_shape (workspace true PyNone endpoint_found (Ok tt) (Ok tt))
            (config "schema.index" None None None) [] _).
  vm_compute. discriminate.
Defined.

(** C7 at a self-managed index and no embedding model name. *)
Lemma C7_witness :
  exists e,
    outcome_of (_validate_tool_inputs
                  (workspace false (PyInt 768) endpoint_found (Ok tt) (Ok tt))
                  (config "cat.sch.idx" None None None, [])) = Raise e
    /\ is_configuration_error e = true.
Proof.
  destruct (C7_embedding_model_required
              (workspace false (PyInt 768) endpoint_found (Ok tt) (Ok tt))
              (config "cat.sch.idx" None None None) []
              "cat.sch.idx" (details_with false (PyInt 768))
              eq_refl eq_refl eq_refl eq_refl eq_refl) as (e & He & _ & Hlast).
  exists e. split; [exact He|].
  rewrite (Hlast eq_refl (Some "text") [] eq_refl eq_refl). reflexivity.
Defined.

(** C8 at a lookup that reports not-found: validation succeeds and the
    resource list holds the index only. *)
Lemma C8_witness :
  outcome_of (_validate_tool_inputs
                (workspace false PyNone endpoint_missing (Ok tt) (Ok tt))
                (config "cat.sch.idx" None (Some "emb") None, []))
  = Ok (set_resources (Some ["cat.sch.idx"])
          (self_of (validate_and_build_tool
                      (workspace false PyNone endpoint_missing (Ok tt) (Ok tt))
                      (config "cat.sch.idx" None (Some "emb") None, []))))
  /\ resources (self_of (_validate_tool_inputs
                           (workspace false PyNone endpoint_missing (Ok tt) (Ok tt))
                           (config "cat.sch.idx" None (Some "emb") None, [])))
     = Some ["cat.sch.idx"].
Proof.
  destruct (proj1 (C8_endpoint_lookup_best_effort
                     (workspace false PyNone endpoint_missing (Ok tt) (Ok tt))
                     (config "cat.sch.idx" None (Some "emb") None) []
                     (self_of (validate_and_build_tool
                                 (workspace false PyNone endpoint_missing (Ok tt) (Ok tt))
                                 (config "cat.sch.idx" None (Some "emb") None, [])))
                     (trace_of (validate_and_build_tool
                                  (workspace false PyNone endpoint_missing (Ok tt) (Ok tt))
                                  (config "cat.sch.idx" None (Some "emb") None, [])))
                     eq_refl eq_refl eq_refl eq_refl)
              "Endpoint does not exist" eq_refl) as [Hvalidated Hresources].
  split.
  - exact (f_equal fst Hvalidated).
  - rewrite Hvalidated. exact Hresources.
Defined.

(** C10 at a managed index without an embedding model name: the endpoint
    is looked up under [None]; a refusal aborts validation, a not-found
    does not. *)
Lemma C10_witness :
  trace_of (_validate_tool_inputs
              (workspace true PyNone endpoint_denied (Ok tt) (Ok tt))
              (config "cat.sch.idx" None None None, []))
  = [GetIndex "cat.sch.idx"; ServingEndpointsGet None]
  /\ outcome_of (_validate_tool_inputs
                   (workspace true PyNone endpoint_denied (Ok tt) (Ok tt))
                   (config "cat.sch.idx" None None None, []))
     = Raise (ExternalError "PermissionDenied" "not authorized")
  /\ exists obj tr,
       _validate_tool_inputs
         (workspace true PyNone endpoint_missing (Ok tt) (Ok tt))
         (config "cat.sch.idx" None None None, [])
       = (Ok obj, (obj, tr))
       /\ resources obj = Some ["cat.sch.idx"].
Proof.
  pose proof (C10_lookup_unconditional
                (workspace true PyNone endpoint_denied (Ok tt) (Ok tt))
                (config "cat.sch.idx" None None None) []
                (self_of (validate_and_build_tool
                            (workspace true PyNone endpoint_denied (Ok tt) (Ok tt))
                            (config "cat.sch.idx" None None None, [])))
                (trace_of (validate_and_build_tool
                             (workspace true PyNone endpoint_denied (Ok tt) (Ok tt))
                             (config "cat.sch.idx" None None None, [])))
                eq_refl)
    as (Hlook & _ & _ & Hother & _).
  pose proof (C10_lookup_unconditional
                (workspace true PyNone endpoint_missing (Ok tt) (Ok tt))
                (config "cat.sch.idx" None None None) []
                (self_of (validate_and_build_tool
                            (workspace true PyNone endpoint_missing (Ok tt) (Ok tt))
                            (config "cat.sch.idx" None None None, [])))
                (trace_of (validate_and_build_tool
                             (workspace true PyNone endpoint_missing (Ok tt) (Ok tt))
                             (config "cat.sch.idx" None None None, [])))
                eq_refl)
    as (_ & _ & _ & _ & Hcaught).
  split; [|split].
  - exact (Hlook eq_refl eq_refl eq_refl).
  - exact (f_equal fst (Hother (ExternalError "PermissionDenied" "not authorized")
                          eq_refl eq_refl eq_refl eq_refl eq_refl)).
  - exact (Hcaught (ResourceDoesNotExist "Endpoint does not exist")
             eq_refl eq_refl eq_refl (or_intror (conj eq_refl eq_refl))).
Defined.

(** * Further properties of [execute] *)

Section ExecuteMore.

Context {VectorSearchIndex SearchResponse Resource : Type}.
Variable W : World VectorSearchIndex SearchResponse Resource.

Local Abbreviation Tool := (VectorSearchRetrieverTool VectorSearchIndex Resource).
Local Abbreviation Trace := (list (event VectorSearchIndex)).

Lemma query_text_and_vector_managed (self : Tool) (tr : Trace)
    (q : string) (openai_client : option OpenAI) (details : IndexDetails) :
  _index_details self = Some details ->
  is_databricks_managed_embeddings details = true ->
  query_text_and_vector W q openai_client (self, tr) = (Ok (Some q, None), (self, tr)).
Proof.
  intros Hd Hm. py_unfold. simpl. rewrite Hd. simpl. now rewrite Hm.
Qed.

(** What follows lines 164-188, by the answers of the index and the parser. *)
Lemma execute_after_query (self : Tool) (tr tr1 : Trace)
    (q : string) (openai_client : option OpenAI)
    (tv : option string * option (list float)) (index : VectorSearchIndex) :
  query_text_and_vector W q openai_client (self, tr) = (Ok tv, (self, tr1)) ->
  _index self = Some index ->
  execute W q openai_client (self, tr) =
    let args := search_args self (fst tv) (snd tv) in
    let tr2 := (tr1 ++ [SimilaritySearch index args])%list in
    match similarity_search W index args with
    | Raise e => (Raise e, (self, tr2))
    | Ok resp =>
        match _index_details self with
        | None => (Raise (AttributeError "_index_details"), (self, tr2))
        | Some details =>
            match parse_vector_search_response W resp details (text_column self) with
            | Raise e => (Raise e, (self, tr2))
            | Ok pairs => (Ok (map fst pairs), (self, tr2))
            end
        end
    end.
Proof.
  intros Hq Hi. unfold execute, bind at 1. rewrite Hq.
  py_unfold. simpl. rewrite Hi. simpl.
  destruct (similarity_search W index _) as [resp|e]; simpl; [|reflexivity].
  destruct (_index_details self) as [details|]; simpl; [|reflexivity].
  destruct (parse_vector_search_response W resp details (text_column self));
    simpl; [|reflexivity].
  now rewrite documents_of_map.
Qed.

(** X1. On an index with managed embeddings [execute] does not look at the
    [openai_client] argument: whichever client is passed, or none, the
    outcome, the object and the trace are the same. *)
Theorem execute_managed_ignores_client (self : Tool) (tr : Trace) (q : string)
    (client1 client2 : option OpenAI) (details : IndexDetails) :
  _index_details self = Some details ->
  is_databricks_managed_embeddings details = true ->
  execute W q client1 (self, tr) = execute W q client2 (self, tr).
Proof.
  intros Hd Hm. py_unfold. simpl. rewrite Hd. simpl. now rewrite Hm.
Qed.

(** X2. On a self-managed index, a client whose [api_key] is [None] or
    empty makes [execute] raise the configuration error "OpenAI API key is
    required ..." before anything is requested: the trace is unchanged. *)
Theorem execute_requires_api_key (self : Tool) (tr : Trace) (q : string)
    (openai_client : option OpenAI) (details : IndexDetails) (oai : OpenAI) :
  _index_details self = Some details ->
  is_databricks_managed_embeddings details = false ->
  client_used W openai_client = Ok oai ->
  PyStr.truthy_opt (api_key oai) = false ->
  execute W q openai_client (self, tr) =
    (Raise (ValueError api_key_required_message), (self, tr)).
Proof.
  intros Hd Hm Hc Hk. py_unfold. simpl. rewrite Hd. simpl. rewrite Hm.
  destruct openai_client as [c|]; simpl in Hc |- *;
    [injection Hc as -> | rewrite Hc]; now rewrite Hk.
Qed.

(** X3. On a self-managed index the failures of the embedding side are the
    outcome of [execute], unmodified, and no search is submitted: a default
    client that cannot be constructed fails the call before any request, a
    failing embedding request fails it right after that request. *)
Theorem execute_embedding_errors_propagate (self : Tool) (tr : Trace) (q : string)
    (details : IndexDetails) :
  _index_details self = Some details ->
  is_databricks_managed_embeddings details = false ->
  (forall e,
     new_OpenAI W = Raise e ->
     execute W q None (self, tr) = (Raise e, (self, tr)))
  /\ (forall openai_client oai e,
        client_used W openai_client = Ok oai ->
        PyStr.truthy_opt (api_key oai) = true ->
        embeddings_create oai q (embedding_model_name self) = Raise e ->
        execute W q openai_client (self, tr) =
          (Raise e, (self, (tr ++ [EmbeddingsCreate q (embedding_model_name self)])%list))).
Proof.
  intros Hd Hm. split.
  - intros e He. py_unfold. simpl. rewrite Hd. simpl. rewrite Hm. now rewrite He.
  - intros openai_client oai e Hc Hk He. unfold execute, bind at 1.
    rewrite (query_text_and_vector_self_managed W self tr q openai_client details oai
               Hd Hm Hc Hk).
    cbv zeta. now rewrite He.
Qed.

(** X4. When the embedding response carries no entry, [data[0]] fails:
    [execute] raises [IndexError] after the embedding request and submits
    no search. *)
Theorem execute_empty_embedding_response (self : Tool) (tr : Trace) (q : string)
    (openai_client : option OpenAI) (details : IndexDetails) (oai : OpenAI) :
  _index_details self = Some details ->
  is_databricks_managed_embeddings details = false ->
  client_used W openai_client = Ok oai ->
  PyStr.truthy_opt (api_key oai) = true ->
  embeddings_create oai q (embedding_model_name self) = Ok [] ->
  execute W q openai_client (self, tr) =
    (Raise (IndexError "list index out of range"),
     (self, (tr ++ [EmbeddingsCreate q (embedding_model_name self)])%list)).
Proof.
  intros Hd Hm Hc Hk He. unfold execute, bind at 1.
  rewrite (query_text_and_vector_self_managed W self tr q openai_client details oai
             Hd Hm Hc Hk).
  cbv zeta. now rewrite He.
Qed.

(** X5. Once the query is prepared, an exception of [similarity_search] is
    the outcome of [execute], and so is an exception of the response
    parser; in both cases the search is the last call of the run. *)
Theorem execute_search_errors_propagate (self : Tool) (tr tr1 : Trace) (q : string)
    (openai_client : option OpenAI) (tv : option string * option (list float))
    (index : VectorSearchIndex) (details : IndexDetails) :
  query_text_and_vector W q openai_client (self, tr) = (Ok tv, (self, tr1)) ->
  _index self = Some index ->
  _index_details self = Some details ->
  let args := search_args self (fst tv) (snd tv) in
  (forall e,
     similarity_search W index args = Raise e ->
     execute W q openai_client (self, tr) =
       (Raise e, (self, (tr1 ++ [SimilaritySearch index args])%list)))
  /\ (forall resp e,
        similarity_search W index args = Ok resp ->
        parse_vector_search_response W resp details (text_column self) = Raise e ->
        execute W q openai_client (self, tr) =
          (Raise e, (self, (tr1 ++ [SimilaritySearch index args])%list))).
Proof.
  intros Hq Hi Hd args. subst args.
  rewrite (execute_after_query self tr tr1 q openai_client tv index Hq Hi). cbv zeta.
  split.
  - intros e He. now rewrite He.
  - intros resp e Hs Hp. now rewrite Hs, Hd, Hp.
Qed.

(** X6. Whatever the object, the client and the collaborators' answers, one
    call of [execute] makes at most two external calls: at most one
    embedding request, for the query itself under the configured model,
    then at most one similarity search, on the object's own index with the
    object's columns, filters, result count and query type.  It never looks
    up an index or a serving endpoint and logs no warning. *)
Theorem execute_external_calls (self : Tool) (tr : Trace) (q : string)
    (openai_client : option OpenAI) :
  exists new,
    trace_of (execute W q openai_client (self, tr)) = (tr ++ new)%list
    /\ (new = []
        \/ new = [EmbeddingsCreate q (embedding_model_name self)]
        \/ (exists index,
              _index self = Some index
              /\ new = [SimilaritySearch index (search_args self (Some q) None)])
        \/ (exists index v,
              _index self = Some index
              /\ new = [EmbeddingsCreate q (embedding_model_name self);
                        SimilaritySearch index
                          (search_args self
                             (if flag_is_hybrid (query_type self) then Some q else None)
                             (Some v))])).
Proof.
  rewrite <- is_hybrid_flag.
  destruct (is_hybrid (query_type self)) eqn:Hh.
  all: py_unfold; rewrite ?Hh; py_cases; rewrite ?Hh.
  all: try (exists []; split; [now rewrite app_nil_r | now left]).
  all: try (eexists; split; [reflexivity | right; left; reflexivity]).
  all: try (eexists; split;
            [reflexivity | right; right; left; eexists; split; reflexivity]).
  all: eexists; split;
    [rewrite <- app_assoc; reflexivity
    | right; right; right; do 2 eexists; split; reflexivity].
Qed.

End ExecuteMore.

(** * Further properties of strings *)

Lemma len_append (s t : string) : PyStr.len (s ++ t) = PyStr.len s + PyStr.len t.
Proof.
  unfold PyStr.len. induction s as [|c s IH]; simpl; [reflexivity|]. now rewrite IH.
Qed.

Lemma replace_dots_length (s : string) :
  PyStr.len (PyStr.replace "."%char "__" s) = PyStr.len s + PyStr.count "."%char s.
Proof.
  unfold PyStr.len. induction s as [|c s IH]; simpl; [reflexivity|].
  destruct (Ascii.eqb c "."); simpl; rewrite IH; lia.
Qed.

Lemma drop_append (front tail : string) :
  PyStr.drop (PyStr.len front) (front ++ tail) = tail.
Proof. induction front as [|c front IH]; simpl; [reflexivity | exact IH]. Qed.

Lemma slice_last_append (n : nat) (front tail : string) :
  PyStr.len tail = n -> PyStr.slice_last n (front ++ tail) = tail.
Proof.
  intros <-. unfold PyStr.slice_last. rewrite len_append.
  replace (PyStr.len front + PyStr.len tail - PyStr.len tail) with (PyStr.len front)
    by lia.
  apply drop_append.
Qed.

Lemma string_forall_append (p : ascii -> bool) (s t : string) :
  string_forall p (s ++ t) = string_forall p s && string_forall p t.
Proof.
  induction s as [|c s IH]; simpl; [reflexivity|]. now rewrite IH, andb_assoc.
Qed.

Lemma string_forall_drop (p : ascii -> bool) (k : nat) (s : string) :
  string_forall p s = true -> string_forall p (PyStr.drop k s) = true.
Proof.
  revert s. induction k as [|k IH]; intros s H; simpl; [exact H|].
  destruct s as [|c s]; [reflexivity|].
  simpl in H. apply andb_true_iff in H as [_ H]. now apply IH.
Qed.

(** After the rewriting, a dotted identifier whose segments the pattern
    accepts has only characters the pattern accepts, and no dot. *)
Lemma replace_dots_pattern (s : string) :
  string_forall is_identifier_char s = true ->
  string_forall is_tool_name_char (PyStr.replace "."%char "__" s) = true.
Proof.
  induction s as [|c s IH]; simpl; [reflexivity|]. intros H.
  apply andb_true_iff in H as [Hc H].
  destruct (Ascii.eqb c ".") eqn:E; simpl.
  - now apply IH.
  - unfold is_identifier_char in Hc. rewrite E, orb_false_r in Hc.
    rewrite Hc. now apply IH.
Qed.

Lemma replace_dots_no_dot (s : string) :
  PyStr.count "."%char (PyStr.replace "."%char "__" s) = 0.
Proof.
  induction s as [|c s IH]; simpl; [reflexivity|].
  destruct (Ascii.eqb c ".") eqn:E; simpl; [exact IH|]. now rewrite E, IH.
Qed.

Lemma count_drop_le (c : ascii) (k : nat) (s : string) :
  PyStr.count c (PyStr.drop k s) <= PyStr.count c s.
Proof.
  revert s. induction k as [|k IH]; intros s; simpl; [lia|].
  destruct s as [|x s]; simpl; [lia|]. specialize (IH s). lia.
Qed.

Lemma truthy_len (s : string) : PyStr.truthy s = true <-> 0 < PyStr.len s.
Proof.
  unfold PyStr.len. destruct s; simpl; split; intros H; try reflexivity;
    try discriminate H; lia.
Qed.

(** * Further properties of validation *)

Section ValidationMore.

Context {VectorSearchIndex SearchResponse Resource : Type}.
Variable W : World VectorSearchIndex SearchResponse Resource.

Local Abbreviation Tool := (VectorSearchRetrieverTool VectorSearchIndex Resource).
Local Abbreviation Trace := (list (event VectorSearchIndex)).

(** Lines 95-132 succeed exactly when every step does, and then leave the
    object [built] from the collaborators' answers. *)
Lemma validate_and_build_tool_ok (self : Tool) (tr : Trace) (self' : Tool) (tr' : Trace) :
  validate_and_build_tool W (self, tr) = (Ok tt, (self', tr')) <->
  exists index details tc cols description,
    length (PyStr.split "."%char (index_name self)) = 3
    /\ VectorSearchClient W = Ok tt
    /\ get_index W (index_name self) = Ok index
    /\ new_IndexDetails W index = Ok details
    /\ validate_and_get_text_column W (text_column self) details = Ok tc
    /\ validate_and_get_return_columns W (columns_or_empty self) tc details = Ok cols
    /\ is_databricks_managed_embeddings details
       || PyStr.truthy_opt (embedding_model_name self) = true
    /\ description_for W self details = Ok description
    /\ self' = built self index details tc cols description
    /\ tr' = (tr ++ GetIndex (index_name self) :: tool_name_warnings self)%list.
Proof.
  unfold built, returned_tool_name, tool_name_warnings, description_for, columns_or_empty.
  rewrite <- name_before_truncation_or_else.
  split.
  - py_unfold. py_cases; intros H; try discriminate H.
    all: injection H as <- <-.
    all: repeat match goal with u : unit |- _ => destruct u end.
    all: match goal with
         | E : negb (_ =? 3)%nat = false |- _ =>
             apply negb_false_iff, Nat.eqb_eq in E
         end.
    all: match goal with
         | E : negb ?m && negb ?t = false |- _ =>
             assert (m || t = true) by (destruct m, t; simpl in *; congruence)
         end.
    all: do 5 eexists; repeat split; try eassumption; try reflexivity.
    all: now rewrite <- app_assoc.
  - intros (index & details & tc & cols & description
            & H3 & Hc & Hi & Hd & Htc & Hcols & Hm & Hdesc & -> & ->).
    apply Nat.eqb_eq in H3.
    assert (Hm' : negb (is_databricks_managed_embeddings details)
                  && negb (PyStr.truthy_opt (embedding_model_name self)) = false).
    { destruct (is_databricks_managed_embeddings details),
        (PyStr.truthy_opt (embedding_model_name self)); simpl in *; congruence. }
    py_unfold. simpl. rewrite H3. simpl. rewrite Hc. simpl. rewrite Hi. simpl.
    rewrite Hd. simpl. rewrite Htc. simpl. rewrite Hcols. simpl. rewrite Hm'.
    destruct (64 <? PyStr.len _)%nat; simpl.
    all: destruct (tool_description self) as [s|]; simpl in *.
    all: try destruct (PyStr.truthy s); simpl in *.
    all: try (injection Hdesc as ->); try rewrite Hdesc; simpl.
    all: now rewrite <- ?app_assoc.
Qed.

(** A successful validation, read backwards: every collaborator answered,
    the object is [built] from the answers, and the resource list names the
    embedding model only if its endpoint was found. *)
Lemma _validate_tool_inputs_ok (self : Tool) (tr : Trace)
    (obj : Tool) (st : state VectorSearchIndex Resource) :
  _validate_tool_inputs W (self, tr) = (Ok obj, st) ->
  exists index details tc cols description model later,
    length (PyStr.split "."%char (index_name self)) = 3
    /\ get_index W (index_name self) = Ok index
    /\ new_IndexDetails W index = Ok details
    /\ validate_and_get_text_column W (text_column self) details = Ok tc
    /\ validate_and_get_return_columns W (columns_or_empty self) tc details = Ok cols
    /\ is_databricks_managed_embeddings details
       || PyStr.truthy_opt (embedding_model_name self) = true
    /\ description_for W self details = Ok description
    /\ ((model = embedding_model_name self
         /\ serving_endpoints_get W (embedding_model_name self) = Ok tt)
        \/ model = None)
    /\ obj = set_resources (Some (_get_resources W (index_name self) model))
               (built self index details tc cols description)
    /\ st = (obj, (tr ++ GetIndex (index_name self) :: tool_name_warnings self ++ later)%list).
Proof.
  intros H. rewrite _validate_tool_inputs_steps in H.
  destruct (validate_and_build_tool W (self, tr)) as [[[]|e] [self1 tr1]] eqn:E1;
    [|discriminate H].
  apply validate_and_build_tool_ok in E1
    as (index & details & tc & cols & description
        & H3 & Hc & Hi & Hd & Htc & Hcols & Hm & Hdesc & -> & ->).
  rewrite enrich_resources_steps in H. cbv zeta in H.
  exists index, details, tc, cols, description.
  revert H. py_cases; intros H; try discriminate H.
  all: injection H as <- <-.
  all: repeat match goal with u : unit |- _ => destruct u end.
  all: eexists; eexists; repeat split; try eassumption.
  all: try (left; split; [reflexivity | first [eassumption | reflexivity]]).
  all: try (right; reflexivity).
  all: rewrite <- ?app_assoc; simpl; try reflexivity.
  all: rewrite <- (app_nil_r (tool_name_warnings self)) at 1; reflexivity.
Qed.

(** X7. Validation succeeds whenever the identifier has three segments,
    every collaborator answers, the index has managed embeddings or an
    embedding model name is configured, and the endpoint lookup answers
    found or not-found.  In particular an index with managed embeddings
    needs no embedding model name.  The run is one index lookup, the
    warning if the name is too long, and one endpoint lookup. *)
Theorem validation_succeeds (self : Tool) (tr : Trace)
    (index : VectorSearchIndex) (details : IndexDetails) (tc : option string)
    (cols : list string) (description : string) (model : option string) :
  length (PyStr.split "."%char (index_name self)) = 3 ->
  VectorSearchClient W = Ok tt ->
  get_index W (index_name self) = Ok index ->
  new_IndexDetails W index = Ok details ->
  validate_and_get_text_column W (text_column self) details = Ok tc ->
  validate_and_get_return_columns W (columns_or_empty self) tc details = Ok cols ->
  is_databricks_managed_embeddings details
  || PyStr.truthy_opt (embedding_model_name self) = true ->
  description_for W self details = Ok description ->
  import_WorkspaceClient W = Ok tt ->
  import_ResourceDoesNotExist W = Ok tt ->
  WorkspaceClient W = Ok tt ->
  (serving_endpoints_get W (embedding_model_name self) = Ok tt
   /\ model = embedding_model_name self)
  \/ (exists msg,
        serving_endpoints_get W (embedding_model_name self)
        = Raise (ResourceDoesNotExist msg)
        /\ model = None) ->
  let obj := set_resources (Some (_get_resources W (index_name self) model))
               (built self index details tc cols description) in
  _validate_tool_inputs W (self, tr) =
    (Ok obj,
     (obj, (tr ++ GetIndex (index_name self) :: tool_name_warnings self
               ++ [ServingEndpointsGet (embedding_model_name self)])%list)).
Proof.
  intros H3 Hc Hi Hd Htc Hcols Hm Hdesc Hi1 Hi2 Hws Hlookup obj. subst obj.
  assert (E1 : validate_and_build_tool W (self, tr) =
               (Ok tt, (built self index details tc cols description,
                        (tr ++ GetIndex (index_name self) :: tool_name_warnings self)%list))).
  { apply validate_and_build_tool_ok.
    exists index, details, tc, cols, description. repeat split; assumption. }
  rewrite _validate_tool_inputs_steps, E1, enrich_resources_steps, Hi1, Hi2, Hws.
  cbv zeta. simpl embedding_model_name. simpl index_name.
  destruct Hlookup as [[Hl ->]|(msg & Hl & ->)]; rewrite Hl; simpl.
  all: now rewrite <- app_assoc.
Qed.

(** X8. A successful validation leaves the configured fields as they were:
    index name, result count, filters, query type, description override,
    embedding model name, and also the tool name override, which keeps
    the user's value even when the descriptor carries a truncated name.
    The object it returns is the object it leaves in place. *)
Theorem validation_keeps_configuration (self : Tool) (tr : Trace)
    (obj : Tool) (st : state VectorSearchIndex Resource) :
  _validate_tool_inputs W (self, tr) = (Ok obj, st) ->
  fst st = obj
  /\ index_name obj = index_name self
  /\ num_results obj = num_results self
  /\ filters obj = filters self
  /\ query_type obj = query_type self
  /\ tool_name obj = tool_name self
  /\ tool_description obj = tool_description self
  /\ embedding_model_name obj = embedding_model_name self.
Proof.
  intros H.
  apply _validate_tool_inputs_ok in H
    as (index & details & tc & cols & description & model & later
        & _ & _ & _ & _ & _ & _ & _ & _ & -> & ->).
  repeat split.
Qed.

(** X9. After a successful validation the text column is the one the text
    column validator returned for the configured one, and the columns are
    those the column validator returned when given [columns or []]
    together with that validated text column, not the configured one. *)
Theorem validation_columns_from_validators (self : Tool) (tr : Trace)
    (obj : Tool) (st : state VectorSearchIndex Resource) :
  _validate_tool_inputs W (self, tr) = (Ok obj, st) ->
  exists details cols,
    _index_details obj = Some details
    /\ validate_and_get_text_column W (text_column self) details = Ok (text_column obj)
    /\ columns obj = Some cols
    /\ validate_and_get_return_columns W
         (match columns self with Some cs => cs | None => [] end)
         (text_column obj) details = Ok cols.
Proof.
  intros H.
  apply _validate_tool_inputs_ok in H
    as (index & details & tc & cols & description & model & later
        & _ & _ & _ & Htc & Hcols & _ & _ & _ & -> & _).
  exists details, cols. repeat split; assumption.
Qed.

(** X10. A successful validation always replaces the resource list,
    whatever the configuration held there: with the list built for the
    index and the embedding model when the endpoint lookup found the
    model, and with the list built for the index alone otherwise. *)
Theorem validation_overwrites_resources (self : Tool) (tr : Trace)
    (obj : Tool) (st : state VectorSearchIndex Resource) :
  _validate_tool_inputs W (self, tr) = (Ok obj, st) ->
  (resources obj
   = Some (_get_resources W (index_name self) (embedding_model_name self))
   /\ serving_endpoints_get W (embedding_model_name self) = Ok tt)
  \/ resources obj = Some (_get_resources W (index_name self) None).
Proof.
  intros H.
  apply _validate_tool_inputs_ok in H
    as (index & details & tc & cols & description & model & later
        & _ & _ & _ & _ & _ & _ & _ & Hmodel & -> & _).
  destruct Hmodel as [[-> Hl]| ->]; [left | right]; simpl; auto.
Qed.

(** The calls of lines 95-132, whatever their outcome. *)
Lemma validate_and_build_tool_trace (self : Tool) (tr : Trace) :
  exists new,
    trace_of (validate_and_build_tool W (self, tr)) = (tr ++ new)%list
    /\ (new = [] \/ new = GetIndex (index_name self) :: tool_name_warnings self
        \/ new = [GetIndex (index_name self)]).
Proof.
  unfold tool_name_warnings. rewrite <- name_before_truncation_or_else.
  py_unfold. py_cases.
  all: try (exists []; split; [now rewrite app_nil_r | now left]).
  all: try (eexists; split; [reflexivity | right; right; reflexivity]).
  all: try (eexists; split; [reflexivity | right; left; reflexivity]).
  all: eexists; split; [rewrite <- app_assoc; reflexivity | right; left; reflexivity].
Qed.

(** X11. Whatever its outcome, a validation makes at most three records
    in the trace, in this order: the lookup of the configured index, the
    too-long warning, the lookup of the configured embedding model's
    endpoint.  It never requests an embedding and never searches. *)
Theorem validation_external_calls (self : Tool) (tr : Trace) :
  exists new,
    trace_of (_validate_tool_inputs W (self, tr)) = (tr ++ new)%list
    /\ Forall (validation_event self) new
    /\ length new <= 3
    /\ (forall ev later, new = ev :: later -> ev = GetIndex (index_name self)).
Proof.
  assert (Hg : validation_event self (GetIndex (index_name self))) by now left.
  assert (Hs : validation_event self (ServingEndpointsGet (embedding_model_name self)))
    by (right; right; reflexivity).
  assert (Hw : Forall (validation_event self) (tool_name_warnings self)
               /\ length (tool_name_warnings self) <= 1).
  { unfold tool_name_warnings. destruct (64 <? _)%nat; simpl; split; try lia.
    - constructor; [right; left; reflexivity | constructor].
    - constructor. }
  destruct Hw as [Hw Hw1].
  rewrite _validate_tool_inputs_steps.
  destruct (validate_and_build_tool W (self, tr)) as [[[]|e] [self1 tr1]] eqn:E1.
  - apply validate_and_build_tool_ok in E1
      as (index & details & tc & cols & description & _ & _ & _ & _ & _ & _ & _ & _ & -> & ->).
    rewrite enrich_resources_steps. cbv zeta. simpl embedding_model_name.
    py_cases; unfold trace_of; simpl.
    all: try (exists (GetIndex (index_name self) :: tool_name_warnings self
                      ++ [ServingEndpointsGet (embedding_model_name self)])%list;
              split; [now rewrite <- app_assoc|]; split;
              [constructor; [exact Hg | apply Forall_app; split; [exact Hw | constructor; [exact Hs | constructor]]]
              | split; [simpl; rewrite length_app; simpl; lia
                       | intros ev later' Heq; now injection Heq as <- _]]).
    all: exists (GetIndex (index_name self) :: tool_name_warnings self);
      split; [reflexivity|]; split;
      [constructor; [exact Hg | exact Hw]
      | split; [simpl; lia | intros ev later' Heq; now injection Heq as <- _]].
  - destruct (validate_and_build_tool_trace self tr) as (new & Ht & Hnew).
    rewrite E1 in Ht. unfold trace_of in *. simpl in *. exists new. split; [exact Ht|].
    destruct Hnew as [-> | [-> | ->]]; split; try (split; [simpl; lia|]).
    all: try (intros ev later' Heq; now injection Heq as <- _).
    all: try discriminate.
    all: repeat constructor; auto.
Qed.

(** X12. With a well-formed identifier, a failure of the vector-search
    client's construction or of the index lookup (the index does not
    exist) is the outcome of validation, unmodified, with the object
    untouched; no validator runs and no endpoint is looked up. *)
Theorem validation_index_errors_propagate (self : Tool) (tr : Trace) :
  length (PyStr.split "."%char (index_name self)) = 3 ->
  (forall e,
     VectorSearchClient W = Raise e ->
     _validate_tool_inputs W (self, tr) = (Raise e, (self, tr)))
  /\ (forall e,
        VectorSearchClient W = Ok tt ->
        get_index W (index_name self) = Raise e ->
        _validate_tool_inputs W (self, tr) =
          (Raise e, (self, (tr ++ [GetIndex (index_name self)])%list))).
Proof.
  intros H3. apply Nat.eqb_eq in H3. split.
  - intros e He. rewrite _validate_tool_inputs_steps.
    py_unfold. simpl. rewrite H3. simpl. now rewrite He.
  - intros e Hc He. rewrite _validate_tool_inputs_steps.
    py_unfold. simpl. rewrite H3. simpl. rewrite Hc. simpl. now rewrite He.
Qed.

(** X13. The descriptor stored by a successful validation is built for the
    retriever's input type.  Its description is the override when that is
    a non-empty string; with no override, or an empty one, it is the
    default the mixin computes from the index details. *)
Theorem validation_tool_description (self : Tool) (tr : Trace)
    (obj : Tool) (st : state VectorSearchIndex Resource) :
  _validate_tool_inputs W (self, tr) = (Ok obj, st) ->
  exists t details,
    tool obj = Some t
    /\ _index_details obj = Some details
    /\ function_parameters t = VectorSearchRetrieverToolInput
    /\ match tool_description self with
       | Some (String c s) => function_description t = String c s
       | _ => _get_default_tool_description W details = Ok (function_description t)
       end.
Proof.
  intros H.
  apply _validate_tool_inputs_ok in H
    as (index & details & tc & cols & description & model & later
        & _ & _ & _ & _ & _ & _ & Hdesc & _ & -> & _).
  eexists. exists details. repeat split.
  unfold description_for in Hdesc. simpl.
  destruct (tool_description self) as [[|c s]|]; simpl in Hdesc; try exact Hdesc.
  now injection Hdesc as <-.
Qed.

Lemma returned_tool_name_length (self : Tool) :
  length (PyStr.split "."%char (index_name self)) = 3 ->
  1 <= PyStr.len (returned_tool_name self) <= 64.
Proof.
  intros H3. unfold returned_tool_name.
  set (name := name_before_truncation (tool_name self) (index_name self)).
  destruct (64 <? PyStr.len name)%nat eqn:E.
  - apply Nat.ltb_lt in E.
    destruct (slice_last_is_suffix 64 name) as (_ & _ & ->); lia.
  - apply Nat.ltb_ge in E. split; [|exact E].
    subst name. unfold name_before_truncation, dots_to_double_underscores.
    destruct (tool_name self) as [[|c s]|]; try (unfold PyStr.len; simpl; lia).
    all: rewrite <- replace_is_join, replace_dots_length.
    all: rewrite split_length in H3; lia.
Qed.

(** X14. The name in the descriptor stored by a successful validation has
    between 1 and 64 characters, whatever the override and the index
    identifier. *)
Theorem validation_tool_name_length (self : Tool) (tr : Trace)
    (obj : Tool) (st : state VectorSearchIndex Resource) :
  _validate_tool_inputs W (self, tr) = (Ok obj, st) ->
  exists t, tool obj = Some t /\ 1 <= PyStr.len (function_name t) <= 64.
Proof.
  intros H.
  apply _validate_tool_inputs_ok in H
    as (index & details & tc & cols & description & model & later
        & H3 & _ & _ & _ & _ & _ & _ & _ & -> & _).
  eexists. split; [reflexivity|]. simpl. now apply returned_tool_name_length.
Qed.

(** X15. Without a tool name override (none, or an empty one), the name in
    the descriptor stored by a successful validation contains no dot; and
    when every segment of the index identifier is made of letters, digits,
    underscores and hyphens, the name matches [^[a-zA-Z0-9_-]+$]. *)
Theorem validation_derived_name_matches_pattern (self : Tool) (tr : Trace)
    (obj : Tool) (st : state VectorSearchIndex Resource) :
  _validate_tool_inputs W (self, tr) = (Ok obj, st) ->
  PyStr.truthy_opt (tool_name self) = false ->
  exists t,
    tool obj = Some t
    /\ PyStr.count "."%char (function_name t) = 0
    /\ (string_forall is_identifier_char (index_name self) = true ->
        matches_tool_name_pattern (function_name t) = true).
Proof.
  intros H Hn.
  apply _validate_tool_inputs_ok in H
    as (index & details & tc & cols & description & model & later
        & H3 & _ & _ & _ & _ & _ & _ & _ & -> & _).
  eexists. split; [reflexivity|]. simpl.
  pose proof (returned_tool_name_length self H3) as Hlen.
  revert Hlen. unfold returned_tool_name.
  assert (E : name_before_truncation (tool_name self) (index_name self)
              = PyStr.replace "."%char "__" (index_name self)).
  { rewrite <- name_before_truncation_or_else.
    destruct (tool_name self) as [[|c s]|]; simpl in *; try reflexivity.
    discriminate Hn. }
  rewrite E. clear E. intros Hlen.
  assert (Hd : forall k, PyStr.count "."%char
                 (PyStr.drop k (PyStr.replace "."%char "__" (index_name self))) = 0).
  { intros k.
    pose proof (count_drop_le "."%char k (PyStr.replace "."%char "__" (index_name self))).
    rewrite replace_dots_no_dot in *. lia. }
  split.
  - destruct (64 <? _)%nat; [apply Hd | apply replace_dots_no_dot].
  - intros Hchars. unfold matches_tool_name_pattern.
    apply andb_true_iff. split; [apply truthy_len; lia|].
    apply replace_dots_pattern in Hchars.
    destruct (64 <? _)%nat; [|exact Hchars].
    now apply string_forall_drop.
Qed.

(** X16. Truncation keeps the last 64 characters only: two configurations
    whose names, before truncation, are longer than 64 characters and end
    with the same 64 characters get the same tool name, however they
    begin. *)
Theorem truncation_keeps_only_the_tail (self1 self2 : Tool) (tr1 tr2 : Trace)
    (front1 front2 tail : string) :
  name_before_truncation (tool_name self1) (index_name self1) = front1 ++ tail ->
  name_before_truncation (tool_name self2) (index_name self2) = front2 ++ tail ->
  PyStr.len tail = 64 ->
  front1 <> "" ->
  front2 <> "" ->
  outcome_of (get_tool_name (self1, tr1)) = Ok tail
  /\ outcome_of (get_tool_name (self2, tr2)) = Ok tail.
Proof.
  intros H1 H2 Ht Hf1 Hf2.
  assert (Hlong : forall front, front <> "" ->
                    (64 <? PyStr.len (front ++ tail))%nat = true).
  { intros front Hf. apply Nat.ltb_lt. rewrite len_append, Ht.
    destruct front; [contradiction | unfold PyStr.len; simpl; lia]. }
  unfold get_tool_name, bind, get_self, ret, emit, outcome_of. simpl.
  rewrite !name_before_truncation_or_else, H1, H2.
  rewrite (Hlong front1 Hf1), (Hlong front2 Hf2). simpl.
  now rewrite !slice_last_append.
Qed.

(** The [try] block only adds to the trace of lines 95-132. *)
Lemma _validate_tool_inputs_trace_extends (st0 : state VectorSearchIndex Resource) :
  exists more,
    trace_of (_validate_tool_inputs W st0)
    = (trace_of (validate_and_build_tool W st0) ++ more)%list.
Proof.
  rewrite _validate_tool_inputs_steps.
  destruct (validate_and_build_tool W st0) as [[[]|e] [self1 tr1]];
    [|exists []; unfold trace_of; simpl; now rewrite app_nil_r].
  rewrite enrich_resources_steps. cbv zeta. unfold trace_of.
  py_cases.
  all: try (eexists; reflexivity).
  all: exists []; now rewrite app_nil_r.
Qed.

(** X17. The identifier check counts dots and nothing else: once the
    vector-search client is constructed, validation goes on to look the
    index up exactly when the identifier has two dots, empty segments
    included. *)
Theorem validation_looks_up_iff_two_dots (self : Tool) (tr : Trace) :
  VectorSearchClient W = Ok tt ->
  PyStr.count "."%char (index_name self) = 2
  <-> exists later,
        trace_of (_validate_tool_inputs W (self, tr))
        = (tr ++ GetIndex (index_name self) :: later)%list.
Proof.
  intros Hc. split.
  - intros H2.
    assert (H3 : (length (PyStr.split "."%char (index_name self)) =? 3)%nat = true)
      by (apply Nat.eqb_eq; rewrite split_length; lia).
    destruct (_validate_tool_inputs_trace_extends (self, tr)) as [more ->].
    assert (E : exists later,
               trace_of (validate_and_build_tool W (self, tr))
               = (tr ++ GetIndex (index_name self) :: later)%list).
    { py_unfold. simpl. rewrite H3. simpl. rewrite Hc. simpl. py_cases.
      all: rewrite <- ?app_assoc; eexists; reflexivity. }
    destruct E as [later ->]. rewrite <- app_assoc. simpl. eexists; reflexivity.
  - intros [later H].
    destruct (Nat.eq_dec (PyStr.count "."%char (index_name self)) 2) as [E|E];
      [exact E | exfalso].
    assert (H3 : (length (PyStr.split "."%char (index_name self)) =? 3)%nat = false)
      by (apply Nat.eqb_neq; rewrite split_length; lia).
    rewrite _validate_tool_inputs_steps in H. revert H.
    py_unfold. simpl. rewrite H3. simpl. intros H.
    rewrite <- (app_nil_r tr) in H at 1.
    apply app_inv_head in H. discriminate H.
Qed.

End ValidationMore.

(** * Validation, then [execute] *)

Section Composition.

Context {VectorSearchIndex SearchResponse Resource : Type}.
Variable W : World VectorSearchIndex SearchResponse Resource.

Local Abbreviation Tool := (VectorSearchRetrieverTool VectorSearchIndex Resource).
Local Abbreviation Trace := (list (event VectorSearchIndex)).

(** The embedding requests of one call. *)
Lemma execute_embedding_events (self : Tool) (tr : Trace) (q : string)
    (openai_client : option OpenAI) (input : string) (model : option string) :
  In (EmbeddingsCreate input model) (trace_of (execute W q openai_client (self, tr))) ->
  In (EmbeddingsCreate input model) tr
  \/ (input = q
      /\ model = embedding_model_name self
      /\ exists details,
           _index_details self = Some details
           /\ is_databricks_managed_embeddings details = false).
Proof.
  py_unfold. py_cases; intros H.
  all: repeat (apply in_app_or in H as [H|H]); auto.
  all: try (destruct H as [H|[]]; try discriminate H).
  all: injection H as <- <-; right; repeat split; eexists; split;
    [reflexivity | assumption].
Qed.

(** X18. An instance validated over an index with managed embeddings
    searches the index that the lookup returned for the configured
    identifier, with the columns the column validator returned and the
    configured filters, result count and query type; the query text goes
    through unchanged and that search is the only call. *)
Theorem validated_managed_execute (cfg : Tool) (tr : Trace)
    (obj : Tool) (st : state VectorSearchIndex Resource) (details : IndexDetails) :
  _validate_tool_inputs W (cfg, tr) = (Ok obj, st) ->
  _index_details obj = Some details ->
  is_databricks_managed_embeddings details = true ->
  exists index cols,
    get_index W (index_name cfg) = Ok index
    /\ validate_and_get_return_columns W
         (match columns cfg with Some cs => cs | None => [] end)
         (text_column obj) details = Ok cols
    /\ forall q openai_client tr1,
         trace_of (execute W q openai_client (obj, tr1)) =
           (tr1 ++ [SimilaritySearch index
                      {| arg_columns := Some cols;
                         arg_query_text := Some q;
                         arg_query_vector := None;
                         arg_filters := filters cfg;
                         arg_num_results := num_results cfg;
                         arg_query_type := query_type cfg |}])%list.
Proof.
  intros H Hd Hm.
  apply _validate_tool_inputs_ok in H
    as (index & details' & tc & cols & description & model & later
        & _ & Hi & _ & _ & Hcols & _ & _ & _ & -> & _).
  simpl in Hd. injection Hd as ->.
  exists index, cols. split; [exact Hi|]. split; [exact Hcols|].
  intros q openai_client tr1.
  rewrite (execute_after_query W _ tr1 tr1 q openai_client (Some q, None) index);
    [| now apply (query_text_and_vector_managed W _ tr1 q openai_client details)
     | reflexivity].
  cbv zeta. unfold trace_of. py_cases; reflexivity.
Qed.

(** X19. Every embedding that [execute] requests on a validated instance
    is an embedding of the query itself under the configured embedding
    model name, which is then a non-empty string: validation has refused
    the self-managed configurations without one. *)
Theorem validated_execute_names_model (cfg : Tool) (tr : Trace)
    (obj : Tool) (st : state VectorSearchIndex Resource)
    (q : string) (openai_client : option OpenAI) (tr1 : Trace)
    (input : string) (model : option string) :
  _validate_tool_inputs W (cfg, tr) = (Ok obj, st) ->
  In (EmbeddingsCreate input model)
     (trace_of (execute W q openai_client (obj, tr1))) ->
  In (EmbeddingsCreate input model) tr1
  \/ (input = q
      /\ exists name,
           model = Some name /\ name <> "" /\ embedding_model_name cfg = Some name).
Proof.
  intros H Hin.
  apply _validate_tool_inputs_ok in H
    as (index & details & tc & cols & description & m & later
        & _ & _ & _ & _ & _ & Hm & _ & _ & -> & _).
  apply execute_embedding_events in Hin as [Hin|(-> & -> & details' & Hd & Hself)];
    [now left | right].
  simpl in Hd. injection Hd as <-. rewrite Hself in Hm. simpl in Hm.
  split; [reflexivity|]. simpl.
  destruct (embedding_model_name cfg) as [[|c s]|]; try discriminate Hm.
  eexists. repeat split. discriminate.
Qed.

End Composition.

(** * Instances of the further properties *)

(** X1 at a client without a credential and at no client. *)
Lemma execute_managed_ignores_client_witness :
  execute managed_workspace "foo" (Some embedder_without_key) (managed_instance, [])
  = execute managed_workspace "foo" None (managed_instance, []).
Proof.
  exact (execute_managed_ignores_client managed_workspace managed_instance [] "foo"
           (Some embedder_without_key) None (details_with true PyNone)
           eq_refl eq_refl).
Defined.

(** X2 at a client whose key is the empty string. *)
Lemma execute_requires_api_key_witness :
  execute self_managed_workspace "foo" (Some embedder_without_key)
    (self_managed_instance, [])
  = (Raise (ValueError
       "OpenAI API key is required to generate embeddings for retrieval queries."),
     (self_managed_instance, [])).
Proof.
  exact (execute_requires_api_key self_managed_workspace self_managed_instance [] "foo"
           (Some embedder_without_key) (details_with false (PyInt 3))
           embedder_without_key eq_refl eq_refl eq_refl eq_refl).
Defined.

(** X3 at a default client that cannot be built and at a rate-limited one. *)
Lemma execute_embedding_errors_propagate_witness :
  execute self_managed_workspace "foo" None (self_managed_instance, [])
  = (Raise (ExternalError "OpenAIError" "The api_key client option must be set"),
     (self_managed_instance, []))
  /\ execute self_managed_workspace "foo" (Some embedder_failing)
       (self_managed_instance, [])
     = (Raise (ExternalError "RateLimitError" "429"),
        (self_managed_instance, [EmbeddingsCreate "foo" (Some "emb")])).
Proof.
  pose proof (execute_embedding_errors_propagate self_managed_workspace
                self_managed_instance [] "foo" (details_with false (PyInt 3))
                eq_refl eq_refl) as [Hdefault Hrequest].
  split.
  - exact (Hdefault _ eq_refl).
  - exact (Hrequest (Some embedder_failing) embedder_failing _ eq_refl eq_refl eq_refl).
Defined.

(** X4 at a response without entries. *)
Lemma execute_empty_embedding_response_witness :
  execute self_managed_workspace "foo" (Some embedder_empty) (self_managed_instance, [])
  = (Raise (IndexError "list index out of range"),
     (self_managed_instance, [EmbeddingsCreate "foo" (Some "emb")])).
Proof.
  exact (execute_empty_embedding_response self_managed_workspace self_managed_instance
           [] "foo" (Some embedder_empty) (details_with false (PyInt 3)) embedder_empty
           eq_refl eq_refl eq_refl eq_refl eq_refl).
Defined.

(** X5 at a search that fails. *)
Lemma execute_search_errors_propagate_witness :
  execute (answering true PyNone index_found
             (Raise (ExternalError "Exception" "search failed")) (Ok [])
             no_description)
    "foo" None (managed_instance, [])
  = (Raise (ExternalError "Exception" "search failed"),
     (managed_instance,
      [SimilaritySearch "cat.sch.idx" (search_args managed_instance (Some "foo") None)])).
Proof.
  exact (proj1 (execute_search_errors_propagate
                  (answering true PyNone index_found
                     (Raise (ExternalError "Exception" "search failed")) (Ok [])
                     no_description)
                  managed_instance [] [] "foo" None (Some "foo", None)
                  "cat.sch.idx" (details_with true PyNone)
                  eq_refl eq_refl eq_refl) _ eq_refl).
Defined.

(** X7 at an index with managed embeddings and no embedding model name. *)
Lemma validation_succeeds_witness :
  outcome_of (_validate_tool_inputs
                (workspace true PyNone endpoint_missing (Ok tt) (Ok tt))
                (config "cat.sch.idx" None None None, []))
  = Ok (set_resources (Some ["cat.sch.idx"])
          (built (config "cat.sch.idx" None None None) "cat.sch.idx"
             (details_with true PyNone) (Some "text") []
             "A vector search-based retrieval tool.")).
Proof.
  exact (f_equal fst
           (validation_succeeds
              (workspace true PyNone endpoint_missing (Ok tt) (Ok tt))
              (config "cat.sch.idx" None None None) []
              "cat.sch.idx" (details_with true PyNone) (Some "text") []
              "A vector search-based retrieval tool." None
              eq_refl eq_refl eq_refl eq_refl eq_refl eq_refl eq_refl eq_refl
              eq_refl eq_refl eq_refl
              (or_intror (ex_intro _ "Endpoint does not exist"
                            (conj eq_refl eq_refl))))).
Defined.

(** X8 at an override of 81 characters: the field keeps all of them. *)
Lemma validation_keeps_configuration_witness :
  tool_name (self_of (_validate_tool_inputs managed_workspace
                        (config "cat.sch.idx" (Some long_name) None None, [])))
  = Some long_name.
Proof.
  exact (proj1 (proj2 (proj2 (proj2 (proj2 (proj2
           (validation_keeps_configuration managed_workspace
              (config "cat.sch.idx" (Some long_name) None None) []
              (self_of (_validate_tool_inputs managed_workspace
                          (config "cat.sch.idx" (Some long_name) None None, [])))
              (snd (_validate_tool_inputs managed_workspace
                      (config "cat.sch.idx" (Some long_name) None None, [])))
              ltac:(vm_compute; reflexivity)))))))).
Defined.

(** X9 at a column validator that puts the text column it is given in
    front: the validated column ["text"] shows up, not the configured
    [None]. *)
Lemma validation_columns_from_validators_witness :
  columns (self_of (_validate_tool_inputs
                      (answering true PyNone index_found (Ok []) (Ok [])
                         (Ok "Search the index."))
                      (config "cat.sch.idx" None None None, [])))
  = Some ["text"].
Proof.
  destruct (validation_columns_from_validators
              (answering true PyNone index_found (Ok []) (Ok []) (Ok "Search the index."))
              (config "cat.sch.idx" None None None) []
              (self_of (_validate_tool_inputs
                          (answering true PyNone index_found (Ok []) (Ok [])
                             (Ok "Search the index."))
                          (config "cat.sch.idx" None None None, [])))
              (snd (_validate_tool_inputs
                      (answering true PyNone index_found (Ok []) (Ok [])
                         (Ok "Search the index."))
                      (config "cat.sch.idx" None None None, [])))
              ltac:(vm_compute; reflexivity)) as (details & cols & _ & _ & Hcols & Hvalidator).
  vm_compute in Hvalidator. injection Hvalidator as <-. exact Hcols.
Defined.

(** X10 at an endpoint that is found. *)
Lemma validation_overwrites_resources_witness :
  (resources (self_of (_validate_tool_inputs self_managed_workspace
                         (config "cat.sch.idx" None (Some "emb") None, [])))
   = Some ["cat.sch.idx"; "emb"]
   /\ endpoint_found (Some "emb") = Ok tt)
  \/ resources (self_of (_validate_tool_inputs self_managed_workspace
                           (config "cat.sch.idx" None (Some "emb") None, [])))
     = Some ["cat.sch.idx"].
Proof.
  exact (validation_overwrites_resources self_managed_workspace
           (config "cat.sch.idx" None (Some "emb") None) []
           (self_of (_validate_tool_inputs self_managed_workspace
                       (config "cat.sch.idx" None (Some "emb") None, [])))
           (snd (_validate_tool_inputs self_managed_workspace
                   (config "cat.sch.idx" None (Some "emb") None, [])))
           ltac:(vm_compute; reflexivity)).
Defined.

(** X12 at an index that does not exist. *)
Lemma validation_index_errors_propagate_witness :
  _validate_tool_inputs
    (answering true PyNone index_missing (Ok []) (Ok []) no_description)
    (config "cat.sch.idx" None None None, [])
  = (Raise (ExternalError "Exception" "Index does not exist"),
     (config "cat.sch.idx" None None None, [GetIndex "cat.sch.idx"])).
Proof.
  exact (proj2 (validation_index_errors_propagate
                  (answering true PyNone index_missing (Ok []) (Ok []) no_description)
                  (config "cat.sch.idx" None None None) [] eq_refl)
               _ eq_refl eq_refl).
Defined.

(** X13 at a description override, over a mixin whose default fails. *)
Lemma validation_tool_description_witness :
  option_map function_description
    (tool (self_of (_validate_tool_inputs
                      (answering true PyNone index_found (Ok []) (Ok []) no_description)
                      (described (Some "Search the docs.")
                         (config "cat.sch.idx" None None None), []))))
  = Some "Search the docs.".
Proof.
  destruct (validation_tool_description
              (answering true PyNone index_found (Ok []) (Ok []) no_description)
              (described (Some "Search the docs.") (config "cat.sch.idx" None None None))
              []
              (self_of (_validate_tool_inputs
                          (answering true PyNone index_found (Ok []) (Ok []) no_description)
                          (described (Some "Search the docs.")
                             (config "cat.sch.idx" None None None), [])))
              (snd (_validate_tool_inputs
                      (answering true PyNone index_found (Ok []) (Ok []) no_description)
                      (described (Some "Search the docs.")
                         (config "cat.sch.idx" None None None), [])))
              ltac:(vm_compute; reflexivity)) as (t & details & Ht & _ & _ & Hdescription).
  rewrite Ht. simpl in *. now rewrite Hdescription.
Defined.

(** X14 at an override of 81 characters. *)
Lemma validation_tool_name_length_witness :
  exists t,
    tool (self_of (_validate_tool_inputs managed_workspace
                     (config "cat.sch.idx" (Some long_name) None None, [])))
    = Some t
    /\ 1 <= PyStr.len (function_name t) <= 64.
Proof.
  exact (validation_tool_name_length managed_workspace
           (config "cat.sch.idx" (Some long_name) None None) []
           (self_of (_validate_tool_inputs managed_workspace
                       (config "cat.sch.idx" (Some long_name) None None, [])))
           (snd (_validate_tool_inputs managed_workspace
                   (config "cat.sch.idx" (Some long_name) None None, [])))
           ltac:(vm_compute; reflexivity)).
Defined.

(** X15 at the identifier [main.my-schema.docs_index]. *)
Lemma validation_derived_name_matches_pattern_witness :
  exists t,
    tool (self_of (_validate_tool_inputs managed_workspace
                     (config "main.my-schema.docs_index" None None None, [])))
    = Some t
    /\ PyStr.count "."%char (function_name t) = 0
    /\ (string_forall is_identifier_char "main.my-schema.docs_index" = true ->
        matches_tool_name_pattern (function_name t) = true).
Proof.
  exact (validation_derived_name_matches_pattern managed_workspace
           (config "main.my-schema.docs_index" None None None) []
           (self_of (_validate_tool_inputs managed_workspace
                       (config "main.my-schema.docs_index" None None None, [])))
           (snd (_validate_tool_inputs managed_workspace
                   (config "main.my-schema.docs_index" None None None, [])))
           ltac:(vm_compute; reflexivity) eq_refl).
Defined.

(** X16 at two overrides that end alike. *)
Lemma truncation_keeps_only_the_tail_witness :
  outcome_of (get_tool_name (config "cat.sch.idx" (Some long_name) None None,
                             @nil (event string)))
  = Ok tail64
  /\ outcome_of (get_tool_name (config "a.b.c" (Some ("x" ++ tail64)) None None,
                                @nil (event string)))
     = Ok tail64.
Proof.
  refine (truncation_keeps_only_the_tail
            (config "cat.sch.idx" (Some long_name) None None)
            (config "a.b.c" (Some ("x" ++ tail64)) None None) [] []
            "an_override_that_" "x" tail64 eq_refl eq_refl eq_refl _ _);
    discriminate.
Defined.

(** X17 at the identifier [..], whose three segments are empty. *)
Lemma validation_looks_up_iff_two_dots_witness :
  exists later,
    trace_of (_validate_tool_inputs managed_workspace (config ".." None None None, []))
    = GetIndex ".." :: later.
Proof.
  exact (proj1 (validation_looks_up_iff_two_dots managed_workspace
                  (config ".." None None None) [] eq_refl) eq_refl).
Defined.

(** X18 at a configuration validated over a managed index. *)
Lemma validated_managed_execute_witness :
  trace_of (execute managed_workspace "foo" None
              (self_of (_validate_tool_inputs managed_workspace
                          (config "cat.sch.idx" None None (Some "ANN"), [])), []))
  = [SimilaritySearch "cat.sch.idx"
       {| arg_columns := Some [];
          arg_query_text := Some "foo";
          arg_query_vector := None;
          arg_filters := None;
          arg_num_results := 5;
          arg_query_type := Some (PyStr.of_ascii "ANN") |}].
Proof.
  destruct (validated_managed_execute managed_workspace
              (config "cat.sch.idx" None None (Some "ANN")) []
              (self_of (_validate_tool_inputs managed_workspace
                          (config "cat.sch.idx" None None (Some "ANN"), [])))
              (snd (_validate_tool_inputs managed_workspace
                      (config "cat.sch.idx" None None (Some "ANN"), [])))
              (details_with true PyNone) ltac:(vm_compute; reflexivity) eq_refl eq_refl)
    as (index & cols & Hindex & Hcols & Htrace).
  vm_compute in Hindex, Hcols. injection Hindex as <-. injection Hcols as <-.
  exact (Htrace "foo" None []).
Defined.

(** X19 at a configuration validated over a self-managed index. *)
Lemma validated_execute_names_model_witness :
  In (EmbeddingsCreate "foo" (Some "emb")) (@nil (event string))
  \/ ("foo" = "foo"
      /\ exists name,
           Some "emb" = Some name /\ name <> ""
           /\ embedding_model_name (config "cat.sch.idx" None (Some "emb") None)
              = Some name).
Proof.
  refine (validated_execute_names_model self_managed_workspace
            (config "cat.sch.idx" None (Some "emb") None) []
            (self_of (_validate_tool_inputs self_managed_workspace
                        (config "cat.sch.idx" None (Some "emb") None, [])))
            (snd (_validate_tool_inputs self_managed_workspace
                    (config "cat.sch.idx" None (Some "emb") None, [])))
            "foo" (Some (embedder 3)) [] "foo" (Some "emb") ltac:(vm_compute; reflexivity) _).
  vm_compute. left. reflexivity.
Defined.
